(** * GitPython [lib/git/cmd.py]: the [Git] command proxy

    A shallow embedding of the [Git] class of [lib/git/cmd.py]: repository
    discovery ([_is_git_dir], [get_git_dir], [get_work_tree], [refresh]),
    the process runner ([execute]) and the dynamic dispatch
    ([transform_kwargs], [method_missing]).

    Python strings are [string], integers are [Z], a keyword dictionary is
    an association list in iteration order.  The operating system (the
    environment, the file-system probes, the current directory, the child
    process) is a record of functions, [World].  [execute] and
    [method_missing] run in a small state-and-exception monad whose state
    holds the [Git] object and the chronological log of what the program
    printed and spawned.

    Three things the class uses live in modules that are not among the
    sources: [dashify] ([utils.py]), [GitCommandError] ([errors.py]) and
    the forwarding of an unknown attribute to [method_missing]
    ([method_missing.py]).  The first two are modelled from the spec; a
    dispatched call is a call of [method_missing]. *)

From Stdlib Require Import String Ascii List ZArith Lia Bool DecimalString.
From Stdlib Require Import Permutation.
Import ListNotations.
Local Open Scope list_scope.
Local Open Scope string_scope.

(** ** Python built-ins used by the module *)

Module Py.

(** The Python values that reach the module as arguments. *)
Inductive value : Type :=
| VNone
| VBool (b : bool)
| VInt (z : Z)
| VStr (s : string).

(** Truth value testing: [None], [False], [0] and [''] are false. *)
Definition truthy (v : value) : bool :=
  match v with
  | VNone => false
  | VBool b => b
  | VInt z => negb (Z.eqb z 0)
  | VStr s => negb (String.eqb s "")
  end.

(** [v is True]. *)
Definition is_True (v : value) : bool :=
  match v with VBool true => true | _ => false end.

(** [type(v) is bool]. *)
Definition type_is_bool (v : value) : bool :=
  match v with VBool _ => true | _ => false end.

(** [v == s] for a string literal [s]. *)
Definition eq_str (v : value) (s : string) : bool :=
  match v with VStr t => String.eqb t s | _ => false end.

(** Decimal text of an integer, as [str] and [%d] give it. *)
Definition str_of_Z (z : Z) : string := NilZero.string_of_int (Z.to_int z).

(** [str(v)], which is also what [%s] formats. *)
Definition str (v : value) : string :=
  match v with
  | VNone => "None"
  | VBool true => "True"
  | VBool false => "False"
  | VInt z => str_of_Z z
  | VStr s => s
  end.

(** Truth value of a string and of an optional string ([None] or [str]). *)
Definition nonempty (s : string) : bool := negb (String.eqb s "").

Definition truthy_opt (o : option string) : bool :=
  match o with Some s => nonempty s | None => false end.

(** Whether every character of [s] satisfies [f]. *)
Fixpoint all_chars (f : ascii -> bool) (s : string) : bool :=
  match s with
  | EmptyString => true
  | String c s' => f c && all_chars f s'
  end.

(** [s.rstrip(chars)]: drop the longest suffix made of characters
    satisfying [f]. *)
Fixpoint rstrip_by (f : ascii -> bool) (s : string) : string :=
  match s with
  | EmptyString => EmptyString
  | String c s' =>
      match rstrip_by f s' with
      | EmptyString => if f c then EmptyString else String c EmptyString
      | r => String c r
      end
  end.

(** The whitespace of a byte string: space, [\t], [\n], [\v], [\f], [\r]. *)
Definition isspace (c : ascii) : bool :=
  let n := nat_of_ascii c in
  Nat.eqb n 32 || (Nat.leb 9 n && Nat.leb n 13).

(** [s.rstrip()]. *)
Definition rstrip (s : string) : string := rstrip_by isspace s.

(** [s.startswith(p)]. *)
Definition startswith (s p : string) : bool := String.prefix p s.

(** [sep.join(l)]. *)
Definition join (sep : string) (l : list string) : string :=
  String.concat sep l.

(** [s.replace(a, b)] for single characters [a] and [b]. *)
Fixpoint replace_char (a b : ascii) (s : string) : string :=
  match s with
  | EmptyString => EmptyString
  | String c s' =>
      String (if Ascii.eqb c a then b else c) (replace_char a b s')
  end.

(** Whether character [a] occurs in [s]. *)
Fixpoint contains (a : ascii) (s : string) : bool :=
  match s with
  | EmptyString => false
  | String c s' => Ascii.eqb c a || contains a s'
  end.

Definition hex_digit (n : nat) : ascii :=
  if Nat.ltb n 10 then ascii_of_nat (48 + n) else ascii_of_nat (87 + n).

(** [repr] of a byte string: single quotes unless the text has a single
    quote and no double quote; the quote and the backslash escaped,
    [\t], [\n], [\r] by name, other bytes outside the printable range
    as [\xhh]. *)
Fixpoint repr_body (q : ascii) (s : string) : string :=
  match s with
  | EmptyString => EmptyString
  | String c s' =>
      let n := nat_of_ascii c in
      let rest := repr_body q s' in
      if Ascii.eqb c q || Ascii.eqb c "\"%char then
        String "\"%char (String c rest)
      else if Nat.eqb n 9 then String "\"%char (String "t"%char rest)
      else if Nat.eqb n 10 then String "\"%char (String "n"%char rest)
      else if Nat.eqb n 13 then String "\"%char (String "r"%char rest)
      else if Nat.ltb n 32 || Nat.leb 127 n then
        String "\"%char (String "x"%char
          (String (hex_digit (n / 16)) (String (hex_digit (n mod 16)) rest)))
      else String c rest
  end.

Definition repr_str (s : string) : string :=
  let q := if contains "'"%char s && negb (contains (ascii_of_nat 34) s)
           then ascii_of_nat 34 else "'"%char in
  String q (repr_body q s ++ String q EmptyString).

(** [str] of a list of strings, which is what [%s] formats. *)
Definition str_of_list (l : list string) : string :=
  "[" ++ join ", " (map repr_str l) ++ "]".

End Py.

(** ** [os.path] on POSIX *)

Module PosixPath.

Definition slash : ascii := "/"%char.
Definition is_slash (c : ascii) : bool := Ascii.eqb c slash.

(** [p[:i], p[i:]] with [i = p.rfind('/') + 1]. *)
Fixpoint rpartition (p : string) : string * string :=
  match p with
  | EmptyString => (EmptyString, EmptyString)
  | String c p' =>
      match rpartition p' with
      | (EmptyString, t) =>
          if is_slash c then (String c EmptyString, t)
          else (EmptyString, String c t)
      | (h, t) => (String c h, t)
      end
  end.

(** [head == '/' * len(head)]. *)
Definition all_slashes (s : string) : bool := Py.all_chars is_slash s.

(** [os.path.split]. *)
Definition split (p : string) : string * string :=
  let '(head, tail) := rpartition p in
  if Py.nonempty head && negb (all_slashes head)
  then (Py.rstrip_by is_slash head, tail)
  else (head, tail).

Definition endswith_slash (s : string) : bool :=
  match rpartition s with
  | (EmptyString, _) => false
  | (_, t) => negb (Py.nonempty t)
  end.

(** [os.path.join(a, b)]. *)
Definition join (a b : string) : string :=
  if Py.startswith b "/" then b
  else if negb (Py.nonempty a) || endswith_slash a then a ++ b
  else a ++ "/" ++ b.

Definition isabs (p : string) : bool := Py.startswith p "/".

(** [path.split('/')]. *)
Fixpoint components (p : string) : list string :=
  match p with
  | EmptyString => [EmptyString]
  | String c p' =>
      if is_slash c then EmptyString :: components p'
      else match components p' with
           | [] => [String c EmptyString]
           | x :: xs => String c x :: xs
           end
  end.

(** The loop of [normpath]; [new_comps] is kept reversed. *)
Fixpoint norm_comps (initial_slashes : nat) (comps new_comps : list string)
  : list string :=
  match comps with
  | [] => rev new_comps
  | comp :: rest =>
      if String.eqb comp "" || String.eqb comp "." then
        norm_comps initial_slashes rest new_comps
      else if negb (String.eqb comp "..")
              || (Nat.eqb initial_slashes 0
                  && match new_comps with [] => true | _ => false end)
              || match new_comps with
                 | last :: _ => String.eqb last ".."
                 | [] => false
                 end
      then norm_comps initial_slashes rest (comp :: new_comps)
      else norm_comps initial_slashes rest (tl new_comps)
  end.

(** [os.path.normpath]. *)
Definition normpath (path : string) : string :=
  if String.eqb path "" then "."
  else
    let initial_slashes :=
      if Py.startswith path "/" then
        if Py.startswith path "//" && negb (Py.startswith path "///")
        then 2%nat else 1%nat
      else 0%nat in
    let comps := norm_comps initial_slashes (components path) [] in
    let path' := Py.join "/" comps in
    let path'' :=
      match initial_slashes with
      | 0%nat => path'
      | 1%nat => "/" ++ path'
      | _ => "//" ++ path'
      end in
    if Py.nonempty path'' then path'' else ".".

(** [os.path.abspath], with the current directory [cwd]. *)
Definition abspath (cwd path : string) : string :=
  if isabs path then normpath path else normpath (join cwd path).

End PosixPath.

(** ** The operating system as the module sees it *)

(** What a finished child process leaves behind: the bytes read from its
    two pipes and the status [proc.wait()] returns. *)
Record completed : Type := Completed {
  stdout_data : string;
  stderr_data : string;
  returncode : Z
}.

(** Modelled from the spec: [GitCommandError] of [errors.py], which is not
    among the sources.  The spec has it carry the argument vector, the exit
    status and the captured standard-error text.  [OSError] is what
    [subprocess.Popen] raises when the child cannot be started. *)
Inductive exn : Type :=
| GitCommandError (command : list string) (status : Z) (stderr : string)
| OSError (message : string).

Record World : Type := {
  (** [os.getenv] *)
  getenv : string -> option string;
  (** [os.path.isdir], [os.path.isfile], [os.path.islink], [os.readlink] *)
  isdir : string -> bool;
  isfile : string -> bool;
  islink : string -> bool;
  readlink : string -> string;
  (** [os.getcwd] *)
  getcwd : string;
  (** [subprocess.Popen(command, cwd, stdin)] followed by reading both
      pipes to their end and [wait]; on the left, the message of the
      [OSError] of a child that could not be started *)
  popen : list string -> option string -> Py.value -> string + completed
}.

(** ** The [Git] object *)

Record Git : Type := {
  _location : string;
  _is_bare_repo : bool;
  _git_dir : option string;
  _is_in_repo : bool;
  _work_tree : option string;
  _cwd : option string
}.

Definition set_git_dir (g : Git) (v : option string) : Git :=
  {| _location := _location g; _is_bare_repo := _is_bare_repo g;
     _git_dir := v; _is_in_repo := _is_in_repo g;
     _work_tree := _work_tree g; _cwd := _cwd g |}.

Definition set_is_in_repo (g : Git) (v : bool) : Git :=
  {| _location := _location g; _is_bare_repo := _is_bare_repo g;
     _git_dir := _git_dir g; _is_in_repo := v;
     _work_tree := _work_tree g; _cwd := _cwd g |}.

Definition set_work_tree (g : Git) (v : option string) : Git :=
  {| _location := _location g; _is_bare_repo := _is_bare_repo g;
     _git_dir := _git_dir g; _is_in_repo := _is_in_repo g;
     _work_tree := v; _cwd := _cwd g |}.

Definition set_cwd (g : Git) (v : option string) : Git :=
  {| _location := _location g; _is_bare_repo := _is_bare_repo g;
     _git_dir := _git_dir g; _is_in_repo := _is_in_repo g;
     _work_tree := _work_tree g; _cwd := v |}.

(** ** Directory resolution *)

Section Resolver.

Variable w : World.

(** [Git._is_git_dir] *)
Definition _is_git_dir (d : string) : bool :=
  if isdir w d
     && isdir w (PosixPath.join d "objects")
     && isdir w (PosixPath.join d "refs")
  then
    let headref := PosixPath.join d "HEAD" in
    isfile w headref
    || (islink w headref && Py.startswith (readlink w headref) "refs")
  else false.

(** The [while curpath:] loop of [get_git_dir].  Each turn either leaves
    the loop or continues with a strictly shorter path; [fuel] bounds the
    number of turns and [None] means it ran out. *)
Fixpoint walk (fuel : nat) (curpath : string) (g : Git) : option Git :=
  match fuel with
  | O => None
  | S fuel' =>
      if Py.nonempty curpath then
        if _is_git_dir curpath then Some (set_git_dir g (Some curpath))
        else
          let gitpath := PosixPath.join curpath ".git" in
          if _is_git_dir gitpath then Some (set_git_dir g (Some gitpath))
          else
            let '(curpath', dummy) := PosixPath.split curpath in
            if negb (Py.nonempty dummy) then Some g
            else walk fuel' curpath' g
      else Some g
  end.

(** [Git.get_git_dir]: the object after the call and the value returned.
    The loop is given one turn more than the length of the starting path;
    the outer [None] is the loop out of fuel. *)
Definition get_git_dir (g : Git) : option (Git * option string) :=
  if negb (Py.truthy_opt (_git_dir g)) then
    let g1 := set_git_dir g (getenv w "GIT_DIR") in
    if Py.truthy_opt (_git_dir g1)
       && match _git_dir g1 with Some d => _is_git_dir d | None => false end
    then Some (g1, _git_dir g1)
    else
      match walk (S (String.length (_location g1))) (_location g1) g1 with
      | Some g2 => Some (g2, _git_dir g2)
      | None => None
      end
  else Some (g, _git_dir g).

(** [Git.get_work_tree].  It is only called with [_git_dir] set; the
    [os.path.join] of an unset [_git_dir] raises, which is [None] here. *)
Definition get_work_tree (g : Git) : option (Git * option string) :=
  if _is_bare_repo g then Some (g, None)
  else if negb (Py.truthy_opt (_work_tree g)) then
    let g1 := set_work_tree g (getenv w "GIT_WORK_TREE") in
    if negb (Py.truthy_opt (_work_tree g1))
       || negb (match _work_tree g1 with Some t => isdir w t | None => false end)
    then
      match _git_dir g1 with
      | Some d =>
          let g2 := set_work_tree g1
                      (Some (PosixPath.abspath (getcwd w) (PosixPath.join d ".."))) in
          Some (g2, _work_tree g2)
      | None => None
      end
    else Some (g1, _work_tree g1)
  else Some (g, _work_tree g).

(** [Git.refresh] *)
Definition refresh (g : Git) : option Git :=
  let g1 := set_git_dir g None in
  match get_git_dir g1 with
  | None => None
  | Some (g2, r) =>
      let g3 := set_is_in_repo g2 (negb (negb (Py.truthy_opt r))) in
      let g4 := set_work_tree g3 None in
      let g5 := set_cwd g4 (_git_dir g4) in
      if Py.truthy_opt (_git_dir g5) && negb (_is_bare_repo g5) then
        match get_work_tree g5 with
        | None => None
        | Some (g6, t) => Some (set_cwd g6 t)
        end
      else Some g5
  end.

(** [Git.__init__]; the attributes [refresh] assigns do not exist before
    it runs, and it reads none of them. *)
Definition __init__ (git_dir : option string) (bare_repo : bool) : option Git :=
  let location :=
    if Py.truthy_opt git_dir
    then match git_dir with
         | Some d => PosixPath.abspath (getcwd w) d
         | None => getcwd w
         end
    else getcwd w in
  refresh {| _location := location; _is_bare_repo := bare_repo;
             _git_dir := None; _is_in_repo := false;
             _work_tree := None; _cwd := None |}.

End Resolver.

(** ** Keyword dictionaries *)

(** A dictionary with string keys, as the list [d.items()] gives, in
    iteration order. *)
Definition dict : Type := list (string * Py.value).

Fixpoint dict_get (k : string) (d : dict) : option Py.value :=
  match d with
  | [] => None
  | (k', v) :: d' => if String.eqb k' k then Some v else dict_get k d'
  end.

Definition dict_del (k : string) (d : dict) : dict :=
  filter (fun kv => negb (String.eqb (fst kv) k)) d.

(** [d.pop(k)]: the value and the dictionary without the key, or [None]
    for [KeyError]. *)
Definition dict_pop (k : string) (d : dict) : option (Py.value * dict) :=
  match dict_get k d with
  | Some v => Some (v, dict_del k d)
  | None => None
  end.

(** [d[k] = v]: a present key keeps its place, a new one goes last. *)
Fixpoint dict_set (k : string) (v : Py.value) (d : dict) : dict :=
  match d with
  | [] => [(k, v)]
  | (k', v') :: d' =>
      if String.eqb k' k then (k, v) :: d' else (k', v') :: dict_set k v d'
  end.

(** ** Turning keyword arguments into options *)

(** Modelled from the spec: [dashify] of [utils.py], which is not among the
    sources.  The glossary has it turn the underscores of an identifier
    into hyphens. *)
Definition dashify (s : string) : string :=
  Py.replace_char "_"%char "-"%char s.

(** The body of the loop of [transform_kwargs]: what one keyword argument
    appends to [args]. *)
Definition transform_kwarg (args : list string) (kv : string * Py.value)
  : list string :=
  let '(k, v) := kv in
  if Nat.eqb (String.length k) 1 then
    if Py.is_True v then (args ++ [("-" ++ k)%string])%list
    else if negb (Py.type_is_bool v)
    then (args ++ [("-" ++ k ++ Py.str v)%string])%list
    else args
  else
    if Py.is_True v then (args ++ [("--" ++ dashify k)%string])%list
    else if negb (Py.type_is_bool v)
    then (args ++ [("--" ++ dashify k ++ "=" ++ Py.str v)%string])%list
    else args.

(** [Git.transform_kwargs] *)
Definition transform_kwargs (kwargs : dict) : list string :=
  fold_left transform_kwarg kwargs [].

(** ** The process runner *)

(** What the program did that can be seen from outside, oldest first. *)
Inductive event : Type :=
| Print (line : string)
| Spawn (command : list string) (cwd : option string) (stdin : Py.value).

Record state : Type := {
  self : Git;
  log : list event
}.

(** What [execute] returns: [stdout_value], or the tuple
    [(status, stdout_value, stderr_value)]. *)
Inductive result : Type :=
| RStr (stdout_value : string)
| RTuple (status : Z) (stdout_value stderr_value : string).

(** State and exceptions. *)
Definition M (A : Type) : Type := state -> state * (exn + A).

Definition ret {A : Type} (a : A) : M A := fun s => (s, inr a).

Definition bind {A B : Type} (c : M A) (k : A -> M B) : M B :=
  fun s =>
    match c s with
    | (s', inr a) => k a s'
    | (s', inl e) => (s', inl e)
    end.

Definition raise {A : Type} (e : exn) : M A := fun s => (s, inl e).

Definition get_self : M Git := fun s => (s, inr (self s)).

Definition emit (e : event) : M unit :=
  fun s => ({| self := self s; log := (log s ++ [e])%list |}, inr tt).

Declare Scope monad_scope.
Delimit Scope monad_scope with monad.
Notation "x <- c ;; k" := (bind c (fun x => k))
  (at level 61, c at next level, right associativity) : monad_scope.
Notation "c ;; k" := (bind c (fun _ => k))
  (at level 61, right associativity) : monad_scope.

(** [execute_kwargs] *)
Definition execute_kwargs : list string :=
  ["istream"; "with_keep_cwd"; "with_extended_output";
   "with_exceptions"; "with_raw_output"].

(** One turn of the loop of [method_missing] that moves the keys of
    [execute_kwargs] from [kwargs] into [_kwargs]; a missing key raises
    [KeyError], which the loop passes over. *)
Definition pop_execute_kwarg (acc : dict * dict) (kwarg : string)
  : dict * dict :=
  let '(_kwargs, kwargs) := acc in
  match dict_pop kwarg kwargs with
  | Some (v, kwargs') => (dict_set kwarg v _kwargs, kwargs')
  | None => (_kwargs, kwargs)
  end.

Definition pop_execute_kwargs (kwargs : dict) : dict * dict :=
  fold_left pop_execute_kwarg execute_kwargs ([], kwargs).

Section Runner.

Variable w : World.

(** The module-level [GIT_PYTHON_TRACE]: [False], or the text of the
    environment variable as it was when the module was loaded. *)
Variable GIT_PYTHON_TRACE : Py.value.

Local Open Scope monad_scope.

(** The [print] statement. *)
Definition print (line : string) : M unit := emit (Print line).

(** [subprocess.Popen] and the reading of the pipes. *)
Definition Popen (command : list string) (cwd : option string)
           (stdin : Py.value) : M completed :=
  emit (Spawn command cwd stdin) ;;
  match popen w command cwd stdin with
  | inl message => raise (OSError message)
  | inr proc => ret proc
  end.

(** [Git.execute] *)
Definition execute (command : list string)
           (istream with_keep_cwd with_extended_output
            with_exceptions with_raw_output : Py.value) : M result :=
  (if Py.truthy GIT_PYTHON_TRACE && negb (Py.eq_str GIT_PYTHON_TRACE "full")
   then print (Py.join " " command) else ret tt) ;;
  cwd <- (if Py.truthy with_keep_cwd then ret (Some (getcwd w))
          else g <- get_self ;; ret (_cwd g)) ;;
  proc <- Popen command cwd istream ;;
  let stdout_value := stdout_data proc in
  let stderr_value := stderr_data proc in
  let status := returncode proc in
  let stdout_value :=
    if negb (Py.truthy with_raw_output) then Py.rstrip stdout_value
    else stdout_value in
  let stderr_value :=
    if negb (Py.truthy with_raw_output) then Py.rstrip stderr_value
    else stderr_value in
  (if Py.truthy with_exceptions && negb (Z.eqb status 0)
   then raise (GitCommandError command status stderr_value) else ret tt) ;;
  (if Py.eq_str GIT_PYTHON_TRACE "full" then
     if Py.nonempty stderr_value then
       print (Py.str_of_list command ++ " -> " ++ Py.str_of_Z status
              ++ ": '" ++ stdout_value ++ "' !! '" ++ stderr_value ++ "'")
     else if Py.nonempty stdout_value then
       print (Py.str_of_list command ++ " -> " ++ Py.str_of_Z status
              ++ ": '" ++ stdout_value ++ "'")
     else
       print (Py.str_of_list command ++ " -> " ++ Py.str_of_Z status)
   else ret tt) ;;
  if Py.truthy with_extended_output
  then ret (RTuple status stdout_value stderr_value)
  else ret (RStr stdout_value).

(** [self.execute(call, **_kwargs)]: a parameter takes its keyword's
    value, or its default. *)
Definition execute_with (call : list string) (_kwargs : dict) : M result :=
  let arg (name : string) (default : Py.value) :=
    match dict_get name _kwargs with Some v => v | None => default end in
  execute call
          (arg "istream" Py.VNone)
          (arg "with_keep_cwd" (Py.VBool false))
          (arg "with_extended_output" (Py.VBool false))
          (arg "with_exceptions" (Py.VBool true))
          (arg "with_raw_output" (Py.VBool false)).

(** [Git.method_missing] *)
Definition method_missing (method : string) (args : list Py.value)
           (kwargs : dict) : M result :=
  let '(_kwargs, kwargs) := pop_execute_kwargs kwargs in
  let opt_args := transform_kwargs kwargs in
  let ext_args := map Py.str args in
  let args := (opt_args ++ ext_args)%list in
  let call := (["git"; dashify method] ++ args)%list in
  execute_with call _kwargs.

End Runner.

(** ** Notions the statements below are written with *)

(** [os.path.dirname]: the head [os.path.split] returns. *)
Definition dirname (p : string) : string := fst (PosixPath.split p).

(** [d] is [p] or one of its ancestors: [p], [dirname p],
    [dirname (dirname p)], and so on. *)
Inductive ancestor_or_self (d : string) : string -> Prop :=
| anc_self : ancestor_or_self d d
| anc_parent (p : string) :
    ancestor_or_self d (dirname p) -> ancestor_or_self d p.

(** The same directories as a list, from [p] up to the path that is its
    own parent. *)
Fixpoint chain (fuel : nat) (p : string) : list string :=
  match fuel with
  | O => [p]
  | S fuel' =>
      p :: (if String.eqb (dirname p) p then [] else chain fuel' (dirname p))
  end.

Definition ancestors (p : string) : list string := chain (String.length p) p.

(** No directory of the upward walk from [p], in either form, is a
    control directory. *)
Definition no_repository_above (w : World) (p : string) : Prop :=
  forall d, ancestor_or_self d p ->
    _is_git_dir w d = false /\
    _is_git_dir w (PosixPath.join d ".git") = false.

Definition no_repository_aboveb (w : World) (p : string) : bool :=
  forallb (fun d => negb (_is_git_dir w d)
                    && negb (_is_git_dir w (PosixPath.join d ".git")))
          (ancestors p).

(** The keyword arguments that are not options of [execute]. *)
Definition cli_kwargs (kwargs : dict) : dict :=
  filter (fun kv => negb (existsb (String.eqb (fst kv)) execute_kwargs)) kwargs.

(** The options of [execute] among the keyword arguments, in the order of
    [execute_kwargs]. *)
Definition execute_options (kwargs : dict) : dict :=
  flat_map (fun name => match dict_get name kwargs with
                        | Some v => [(name, v)]
                        | None => []
                        end)
           execute_kwargs.

(** The value a call gives an option, or the option's default. *)
Definition option_value (kwargs : dict) (name : string) (default : Py.value)
  : Py.value :=
  match dict_get name kwargs with Some v => v | None => default end.

(** The directories the children of a log were started in. *)
Definition child_dirs (l : list event) : list (option string) :=
  flat_map (fun e => match e with
                     | Spawn _ cwd _ => [cwd]
                     | Print _ => []
                     end) l.

(** The children a log records. *)
Definition is_spawn (e : event) : bool :=
  match e with Spawn _ _ _ => true | Print _ => false end.

Definition spawns (l : list event) : list event := filter is_spawn l.

(** The directory [execute] starts the child in. *)
Definition child_cwd (w : World) (with_keep_cwd : Py.value) (g : Git)
  : option string :=
  if Py.truthy with_keep_cwd then Some (getcwd w) else _cwd g.

(** The two captured streams as [execute] goes on with them. *)
Definition captured (with_raw_output : Py.value) (data : string) : string :=
  if Py.truthy with_raw_output then data else Py.rstrip data.

(** What tracing prints before the child is started. *)
Definition pre_trace (trace : Py.value) (command : list string) : list event :=
  if Py.truthy trace && negb (Py.eq_str trace "full")
  then [Print (Py.join " " command)] else [].

(** The line full tracing prints once the child is done. *)
Definition full_line (command : list string) (status : Z)
           (stdout_value stderr_value : string) : string :=
  if Py.nonempty stderr_value then
    Py.str_of_list command ++ " -> " ++ Py.str_of_Z status
    ++ ": '" ++ stdout_value ++ "' !! '" ++ stderr_value ++ "'"
  else if Py.nonempty stdout_value then
    Py.str_of_list command ++ " -> " ++ Py.str_of_Z status
    ++ ": '" ++ stdout_value ++ "'"
  else Py.str_of_list command ++ " -> " ++ Py.str_of_Z status.

Definition post_trace (trace : Py.value) (command : list string) (status : Z)
           (stdout_value stderr_value : string) : list event :=
  if Py.eq_str trace "full"
  then [Print (full_line command status stdout_value stderr_value)] else [].

(** A value of type [bool] that is [False]. *)
Definition is_False (v : Py.value) : bool :=
  match v with Py.VBool false => true | _ => false end.

(** One dispatched call, and a sequence of them on one object; the caller
    catches what a call raises and goes on. *)
Record call : Type := {
  call_method : string;
  call_args : list Py.value;
  call_kwargs : dict
}.

Definition keeps_cwd (c : call) : Py.value :=
  option_value (call_kwargs c) "with_keep_cwd" (Py.VBool false).

Fixpoint run_calls (trace : Py.value) (calls : list (World * call)) (s : state)
  : state :=
  match calls with
  | [] => s
  | (w, c) :: rest =>
      run_calls trace rest
        (fst (method_missing w trace (call_method c) (call_args c)
                             (call_kwargs c) s))
  end.

(** ** Sample worlds *)

Definition newline : string := String (ascii_of_nat 10) EmptyString.

(** A machine with one repository, [/srv/repo], whose [HEAD] is a regular
    file, and a child that prints [abc] and succeeds. *)
Definition one_repo (env : string -> option string) (cwd : string)
           (child : string + completed) : World := {|
  getenv := env;
  isdir := fun p =>
    existsb (String.eqb p)
      ["/"; "/srv"; "/srv/repo"; "/srv/repo/.git"; "/srv/repo/.git/objects";
       "/srv/repo/.git/refs"; "/home"; "/home/user"; "/tmp"];
  isfile := fun p => String.eqb p "/srv/repo/.git/HEAD";
  islink := fun _ => false;
  readlink := fun _ => "";
  getcwd := cwd;
  popen := fun _ _ _ => child
|}.

Definition no_env : string -> option string := fun _ => None.

Definition env_git_dir (d : string) : string -> option string :=
  fun name => if String.eqb name "GIT_DIR" then Some d else None.

Definition prints_abc : string + completed :=
  inr (Completed ("abc" ++ newline) "" 0).

Definition not_a_repo : string + completed :=
  inr (Completed "" "fatal: not a repo" 128).

Definition fresh (location : string) : Git :=
  {| _location := location; _is_bare_repo := false; _git_dir := None;
     _is_in_repo := false; _work_tree := None; _cwd := None |}.

Definition start (g : Git) : state := {| self := g; log := [] |}.

(** ** The rest of the class, and notions for its properties *)

(** [Git.get_dir], a property. *)
Definition get_dir (g : Git) : option string := _git_dir g.

(** [os.path.basename]: the tail [os.path.split] returns. *)
Definition basename (p : string) : string := snd (PosixPath.split p).

(** The control directory the walk takes at a directory [d] where one of
    the two forms passes the test: [d] itself first, then [d/.git]. *)
Definition found_at (w : World) (d : string) : string :=
  if _is_git_dir w d then d else PosixPath.join d ".git".

(** One of the two forms passes the test at [d]. *)
Definition repository_at (w : World) (d : string) : bool :=
  _is_git_dir w d || _is_git_dir w (PosixPath.join d ".git").

(** [GIT_DIR] names a control directory. *)
Definition valid_override (w : World) : bool :=
  match getenv w "GIT_DIR" with
  | Some d => Py.nonempty d && _is_git_dir w d
  | None => false
  end.

(** [GIT_WORK_TREE] names a directory. *)
Definition work_tree_override (w : World) : option string :=
  match getenv w "GIT_WORK_TREE" with
  | Some t => if Py.nonempty t && isdir w t then Some t else None
  | None => None
  end.

(** The first character of a string is a hyphen. *)
Definition starts_with_dash (s : string) : bool := Py.startswith s "-".

(** More sample worlds. *)
Definition env_work_tree (t : string) : string -> option string :=
  fun name => if String.eqb name "GIT_WORK_TREE" then Some t else None.

Definition cannot_start : string + completed :=
  inl "[Errno 2] No such file or directory".

(** * Properties *)

(** ** Strings *)

Lemma length_append (a b : string) :
  String.length (a ++ b) = String.length a + String.length b.
Proof. induction a as [|c a IH]; simpl; [reflexivity | now rewrite IH]. Qed.

Lemma append_empty_r (a : string) : a ++ "" = a.
Proof. induction a as [|c a IH]; simpl; [reflexivity | now rewrite IH]. Qed.

Lemma length_zero_empty (a : string) : String.length a = 0 -> a = "".
Proof. destruct a; simpl; [reflexivity | discriminate]. Qed.

Lemma nonempty_false (a : string) : Py.nonempty a = false <-> a = "".
Proof.
  unfold Py.nonempty. rewrite negb_false_iff. apply String.eqb_eq.
Qed.

Lemma nonempty_true (a : string) : Py.nonempty a = true <-> a <> "".
Proof.
  unfold Py.nonempty. rewrite negb_true_iff. apply String.eqb_neq.
Qed.

(** [rstrip_by] cuts a suffix made of stripped characters. *)
Lemma rstrip_by_suffix (f : ascii -> bool) (s : string) :
  exists t, s = Py.rstrip_by f s ++ t /\ Py.all_chars f t = true.
Proof.
  induction s as [|c s [t [Hs Ht]]]; simpl.
  - exists "". split; reflexivity.
  - destruct (Py.rstrip_by f s) as [|a r] eqn:E.
    + destruct (f c) eqn:Fc.
      * exists (String c t). simpl in Hs. subst s. simpl. now rewrite Fc.
      * exists t. simpl in *. now subst s.
    + exists t. simpl in *. split; [now rewrite <- Hs | assumption].
Qed.

(** What is left does not end with a stripped character. *)
Lemma rstrip_by_last (f : ascii -> bool) (s r : string) (c : ascii) :
  Py.rstrip_by f s = r ++ String c "" -> f c = false.
Proof.
  revert r. induction s as [|c0 s IH]; intros r; simpl.
  - destruct r; discriminate.
  - destruct (Py.rstrip_by f s) as [|a r'] eqn:E.
    + destruct (f c0) eqn:Fc.
      * destruct r; discriminate.
      * destruct r as [|b r]; simpl; intros H.
        -- now inversion H; subst.
        -- inversion H. destruct r; discriminate.
    + destruct r as [|b r]; simpl; intros H.
      * discriminate.
      * inversion H. subst. now apply (IH r).
Qed.

Lemma rstrip_by_length (f : ascii -> bool) (s : string) :
  String.length (Py.rstrip_by f s) <= String.length s.
Proof.
  destruct (rstrip_by_suffix f s) as [t [Hs _]].
  rewrite Hs at 2. rewrite length_append. lia.
Qed.

Lemma rstrip_by_same_length (f : ascii -> bool) (s : string) :
  String.length (Py.rstrip_by f s) = String.length s -> Py.rstrip_by f s = s.
Proof.
  destruct (rstrip_by_suffix f s) as [t [Hs _]]. intros H.
  rewrite Hs in H at 2. rewrite length_append in H.
  assert (t = "") by (apply length_zero_empty; lia). subst t.
  rewrite append_empty_r in Hs. now symmetry.
Qed.

(** ** Paths *)

Lemma rpartition_append (p : string) :
  fst (PosixPath.rpartition p) ++ snd (PosixPath.rpartition p) = p.
Proof.
  induction p as [|c p IH]; simpl; [reflexivity|].
  destruct (PosixPath.rpartition p) as [[|a h] t]; simpl in *.
  - destruct (PosixPath.is_slash c); simpl; now rewrite IH.
  - now rewrite IH.
Qed.

Lemma split_tail (p : string) :
  snd (PosixPath.split p) = snd (PosixPath.rpartition p).
Proof.
  unfold PosixPath.split.
  destruct (PosixPath.rpartition p) as [h t].
  now destruct (Py.nonempty h && negb (PosixPath.all_slashes h)).
Qed.

Lemma split_head_length (p : string) :
  String.length (dirname p) + String.length (snd (PosixPath.split p))
  <= String.length p.
Proof.
  unfold dirname. rewrite split_tail.
  rewrite <- (rpartition_append p) at 3. rewrite length_append.
  unfold PosixPath.split.
  destruct (PosixPath.rpartition p) as [h t]; simpl.
  destruct (Py.nonempty h && negb (PosixPath.all_slashes h)); simpl.
  - pose proof (rstrip_by_length PosixPath.is_slash h). lia.
  - lia.
Qed.

(** The parent of a path with a last component is strictly shorter: the
    upward walk ends. *)
Lemma dirname_shorter (p : string) :
  snd (PosixPath.split p) <> "" ->
  String.length (dirname p) < String.length p.
Proof.
  intros H. pose proof (split_head_length p).
  destruct (snd (PosixPath.split p)); [congruence | simpl in *; lia].
Qed.

Lemma dirname_length (p : string) :
  String.length (dirname p) <= String.length p.
Proof. pose proof (split_head_length p). lia. Qed.

(** A parent as long as the path is the path: the top of the chain. *)
Lemma dirname_same_length (p : string) :
  String.length (dirname p) = String.length p -> dirname p = p.
Proof.
  intros H. pose proof (split_head_length p) as L.
  assert (T : snd (PosixPath.rpartition p) = "")
    by (rewrite <- split_tail; apply length_zero_empty; lia).
  pose proof (rpartition_append p) as A. rewrite T, append_empty_r in A.
  unfold dirname, PosixPath.split in *.
  destruct (PosixPath.rpartition p) as [h t]; simpl in *. subst h.
  destruct (Py.nonempty p && negb (PosixPath.all_slashes p)); simpl in *.
  - now apply rstrip_by_same_length.
  - reflexivity.
Qed.

Lemma ancestor_in_chain (d p : string) :
  ancestor_or_self d p ->
  forall n, String.length p <= n -> In d (chain n p).
Proof.
  induction 1 as [|p H IH]; intros n L.
  - destruct n; simpl; now left.
  - destruct n as [|n]; simpl.
    + assert (p = "") by (apply length_zero_empty; lia). subst p.
      specialize (IH 0 (Nat.le_refl _)). exact IH.
    + destruct (String.eqb (dirname p) p) eqn:E.
      * apply String.eqb_eq in E. specialize (IH (S n)).
        rewrite E in IH. specialize (IH L). simpl in IH.
        rewrite E, String.eqb_refl in IH. exact IH.
      * right. apply IH. apply String.eqb_neq in E.
        pose proof (dirname_length p).
        assert (String.length (dirname p) <> String.length p)
          by (intros Q; apply E; now apply dirname_same_length).
        lia.
Qed.

Lemma no_repository_aboveb_sound (w : World) (p : string) :
  no_repository_aboveb w p = true -> no_repository_above w p.
Proof.
  unfold no_repository_aboveb, no_repository_above. intros H d A.
  rewrite forallb_forall in H.
  specialize (H d (ancestor_in_chain d p A _ (Nat.le_refl _))).
  apply andb_true_iff in H. destruct H as [H1 H2].
  now rewrite negb_true_iff in H1, H2.
Qed.

(** ** The upward walk *)

Section WalkFacts.

Variable w : World.

(** The loop never runs out of fuel that exceeds the length of the path. *)
Lemma walk_returns (fuel : nat) :
  forall (p : string) (g : Git),
    String.length p < fuel -> exists g', walk w fuel p g = Some g'.
Proof.
  induction fuel as [|fuel IH]; intros p g L; [lia|]. simpl.
  destruct (Py.nonempty p); [|now eexists].
  destruct (_is_git_dir w p); [now eexists|].
  destruct (_is_git_dir w (PosixPath.join p ".git")); [now eexists|].
  destruct (PosixPath.split p) as [h t] eqn:E.
  destruct (Py.nonempty t) eqn:T; simpl; [|now eexists].
  apply IH. apply nonempty_true in T.
  pose proof (dirname_shorter p) as D. unfold dirname in D.
  rewrite E in D. simpl in D. specialize (D T). lia.
Qed.

(** It only ever assigns [_git_dir]. *)
Lemma walk_frame (fuel : nat) :
  forall (p : string) (g g' : Git),
    walk w fuel p g = Some g' -> g' = set_git_dir g (_git_dir g').
Proof.
  induction fuel as [|fuel IH]; intros p g g'; simpl; [discriminate|].
  assert (Same : Some g = Some g' -> g' = set_git_dir g (_git_dir g'))
    by (intros Q; inversion Q; subst; now destruct g').
  destruct (Py.nonempty p); [|exact Same].
  destruct (_is_git_dir w p); [intros Q; now inversion Q|].
  destruct (_is_git_dir w (PosixPath.join p ".git")); [intros Q; now inversion Q|].
  destruct (PosixPath.split p) as [h t].
  destruct (Py.nonempty t); simpl; [apply IH | exact Same].
Qed.

(** With no control directory on the way up, the loop leaves the object
    as it found it. *)
Lemma walk_finds_nothing (fuel : nat) :
  forall (p : string) (g : Git),
    String.length p < fuel ->
    no_repository_above w p ->
    walk w fuel p g = Some g.
Proof.
  induction fuel as [|fuel IH]; intros p g L N; [lia|]. simpl.
  destruct (Py.nonempty p); [|reflexivity].
  destruct (N p (anc_self p)) as [N1 N2]. rewrite N1, N2.
  destruct (PosixPath.split p) as [h t] eqn:E.
  destruct (Py.nonempty t) eqn:T; simpl; [|reflexivity].
  assert (H : h = dirname p) by (unfold dirname; now rewrite E). subst h.
  apply IH.
  - apply nonempty_true in T.
    pose proof (dirname_shorter p) as D. rewrite E in D. simpl in D.
    specialize (D T). lia.
  - intros d A. apply N. now apply anc_parent.
Qed.

(** What the loop finds is a control directory, of the form [d] or
    [d/.git] for [d] the start or an ancestor of it. *)
Lemma walk_finds_valid (fuel : nat) :
  forall (p : string) (g g' : Git) (r : string),
    walk w fuel p g = Some g' ->
    _git_dir g' = Some r ->
    _git_dir g = Some r \/
    (_is_git_dir w r = true /\
     exists d, ancestor_or_self d p /\ (r = d \/ r = PosixPath.join d ".git")).
Proof.
  induction fuel as [|fuel IH]; intros p g g' r; simpl; [discriminate|].
  assert (Same : Some g = Some g' -> _git_dir g' = Some r ->
                 _git_dir g = Some r \/
                 (_is_git_dir w r = true /\
                  exists d, ancestor_or_self d p /\
                            (r = d \/ r = PosixPath.join d ".git")))
    by (intros Q R; inversion Q; subst; now left).
  destruct (Py.nonempty p); [|exact Same].
  destruct (_is_git_dir w p) eqn:V1.
  { intros Q R. inversion Q; subst. simpl in R. inversion R; subst.
    right. split; [assumption|]. exists r. split; [constructor | now left]. }
  destruct (_is_git_dir w (PosixPath.join p ".git")) eqn:V2.
  { intros Q R. inversion Q; subst. simpl in R. inversion R; subst.
    right. split; [assumption|]. exists p. split; [constructor | now right]. }
  destruct (PosixPath.split p) as [h t] eqn:E.
  destruct (Py.nonempty t); simpl; [|exact Same].
  intros Q R. destruct (IH _ _ _ _ Q R) as [K | [K1 [d [K2 K3]]]]; [now left|].
  right. split; [assumption|]. exists d. split; [|assumption].
  apply anc_parent. unfold dirname. now rewrite E.
Qed.

(** [get_git_dir], [get_work_tree] after a successful [get_git_dir], and
    [refresh] return. *)
Lemma get_git_dir_returns (g : Git) :
  exists g' r, get_git_dir w g = Some (g', r) /\ r = _git_dir g'.
Proof.
  unfold get_git_dir.
  destruct (negb (Py.truthy_opt (_git_dir g))); [|now eauto].
  match goal with |- context [if ?c then _ else _] => destruct c end;
    [now eauto|].
  destruct (walk_returns (S (String.length (_location g)))
              (_location g) (set_git_dir g (getenv w "GIT_DIR"))
              (Nat.lt_succ_diag_r _)) as [g' W].
  simpl. simpl in W. rewrite W. now eauto.
Qed.

Lemma get_work_tree_returns (g : Git) :
  Py.truthy_opt (_git_dir g) = true ->
  exists g' t, get_work_tree w g = Some (g', t) /\
               _git_dir g' = _git_dir g /\ _is_in_repo g' = _is_in_repo g /\
               _is_bare_repo g' = _is_bare_repo g /\ _location g' = _location g.
Proof.
  intros T. unfold get_work_tree.
  assert (Done : forall (g' : Git) (t : option string),
             _git_dir g' = _git_dir g -> _is_in_repo g' = _is_in_repo g ->
             _is_bare_repo g' = _is_bare_repo g -> _location g' = _location g ->
             exists g'' t', Some (g', t) = Some (g'', t') /\
               _git_dir g'' = _git_dir g /\ _is_in_repo g'' = _is_in_repo g /\
               _is_bare_repo g'' = _is_bare_repo g /\ _location g'' = _location g)
    by (intros g' t; now eauto 8).
  destruct (_is_bare_repo g) eqn:B; [now apply Done|].
  destruct (negb (Py.truthy_opt (_work_tree g)));
    [|apply Done; simpl; auto].
  match goal with |- context [if ?c then _ else _] => destruct c end;
    [|apply Done; simpl; auto].
  simpl. destruct (_git_dir g) as [d|] eqn:D;
    [apply Done; simpl; auto | discriminate].
Qed.

Theorem refresh_returns (g : Git) : exists g', refresh w g = Some g'.
Proof.
  unfold refresh.
  destruct (get_git_dir_returns (set_git_dir g None)) as [g2 [r [G R]]].
  rewrite G.
  match goal with |- context [if ?c then _ else _] => destruct c eqn:C end;
    [|now eauto].
  apply andb_true_iff in C. destruct C as [C _].
  match type of C with Py.truthy_opt (_git_dir ?x) = true =>
    destruct (get_work_tree_returns x C) as [g6 [t [W _]]] end.
  rewrite W. now eauto.
Qed.

End WalkFacts.

(** ** The validity test *)

Lemma startswith_iff (s p : string) :
  Py.startswith s p = true <-> exists rest, s = p ++ rest.
Proof.
  unfold Py.startswith. revert s.
  induction p as [|c p IH]; intros s.
  - split; [intros _; now exists s | now destruct s].
  - destruct s as [|c' s]; simpl.
    + split; [discriminate | intros [rest H]; discriminate].
    + destruct (ascii_dec c c') as [->|N].
      * rewrite IH. split; intros [rest H]; exists rest.
        -- now rewrite H.
        -- now inversion H.
      * split; [discriminate | intros [rest H]; inversion H; congruence].
Qed.

(** C4.  [_is_git_dir X] is true exactly when [X] is a directory,
    [X/objects] and [X/refs] are directories, and [X/HEAD] is a regular
    file or a symbolic link whose target text begins with [refs]; in every
    other case it is false. *)
Theorem is_git_dir_iff (w : World) (X : string) :
  let headref := PosixPath.join X "HEAD" in
  (_is_git_dir w X = true <->
   isdir w X = true /\
   isdir w (PosixPath.join X "objects") = true /\
   isdir w (PosixPath.join X "refs") = true /\
   (isfile w headref = true \/
    (islink w headref = true /\
     exists rest, readlink w headref = "refs" ++ rest)))
  /\ (_is_git_dir w X <> true -> _is_git_dir w X = false).
Proof.
  intros headref. split; [|now destruct (_is_git_dir w X)].
  unfold _is_git_dir. fold headref.
  destruct (isdir w X), (isdir w (PosixPath.join X "objects")),
    (isdir w (PosixPath.join X "refs")); simpl;
    try (split; [discriminate | intros (A & B & C & _); discriminate]).
  rewrite orb_true_iff, andb_true_iff, startswith_iff. tauto.
Qed.

(** ** Keyword arguments *)

Lemma transform_kwarg_acc (args : list string) (kv : string * Py.value) :
  transform_kwarg args kv = (args ++ transform_kwarg [] kv)%list.
Proof.
  unfold transform_kwarg. destruct kv as [k v].
  destruct (Nat.eqb (String.length k) 1), (Py.is_True v),
    (negb (Py.type_is_bool v)); simpl; now rewrite ?app_nil_r.
Qed.

Lemma fold_transform_kwarg (kwargs : dict) :
  forall args,
    fold_left transform_kwarg kwargs args
    = (args ++ fold_left transform_kwarg kwargs [])%list.
Proof.
  induction kwargs as [|kv kwargs IH]; intros args; simpl.
  - now rewrite app_nil_r.
  - rewrite IH, (IH (transform_kwarg [] kv)), transform_kwarg_acc.
    now rewrite app_assoc.
Qed.

Lemma transform_kwargs_cons (kv : string * Py.value) (kwargs : dict) :
  transform_kwargs (kv :: kwargs)
  = (transform_kwargs [kv] ++ transform_kwargs kwargs)%list.
Proof.
  unfold transform_kwargs. simpl. now rewrite fold_transform_kwarg.
Qed.

Lemma transform_kwargs_app (a b : dict) :
  transform_kwargs (a ++ b)%list
  = (transform_kwargs a ++ transform_kwargs b)%list.
Proof.
  induction a as [|kv a IH]; simpl; [reflexivity|].
  rewrite transform_kwargs_cons, IH, (transform_kwargs_cons kv a).
  now rewrite app_assoc.
Qed.

Lemma transform_kwargs_False (k : string) :
  transform_kwargs [(k, Py.VBool false)] = [].
Proof.
  unfold transform_kwargs, transform_kwarg. simpl.
  now destruct (Nat.eqb (String.length k) 1).
Qed.

(** C1.  The flags of a dictionary are the flags of its items, in
    iteration order.  A one-character key [k] gives [-k] for [True],
    nothing for [False] and [-k<str(v)>] for a [v] that is not a boolean; a
    longer key gives [--dashify(k)], nothing, and [--dashify(k)=<str(v)>].
    So [max_count=10] gives [--max-count=10], [header=True] gives
    [--header], [header=False] gives nothing and [n=5] gives [-n5]; and the
    items whose value is [False] can be dropped without changing the
    result. *)
Theorem transform_kwargs_flags :
  (forall kwargs,
     transform_kwargs kwargs
     = concat (map (fun kv => transform_kwargs [kv]) kwargs))
  /\ (forall k, String.length k = 1 ->
        transform_kwargs [(k, Py.VBool true)] = ["-" ++ k]
        /\ transform_kwargs [(k, Py.VBool false)] = []
        /\ forall v, Py.type_is_bool v = false ->
             transform_kwargs [(k, v)] = ["-" ++ k ++ Py.str v])
  /\ (forall k, 1 < String.length k ->
        transform_kwargs [(k, Py.VBool true)] = ["--" ++ dashify k]
        /\ transform_kwargs [(k, Py.VBool false)] = []
        /\ forall v, Py.type_is_bool v = false ->
             transform_kwargs [(k, v)] = ["--" ++ dashify k ++ "=" ++ Py.str v])
  /\ transform_kwargs [("max_count", Py.VInt 10)] = ["--max-count=10"]
  /\ transform_kwargs [("header", Py.VBool true)] = ["--header"]
  /\ transform_kwargs [("header", Py.VBool false)] = []
  /\ transform_kwargs [("n", Py.VInt 5)] = ["-n5"]
  /\ (forall kwargs,
        transform_kwargs kwargs
        = transform_kwargs (filter (fun kv => negb (is_False (snd kv))) kwargs)).
Proof.
  repeat split; try reflexivity.
  - intros kwargs. induction kwargs as [|kv kwargs IH]; [reflexivity|].
    rewrite transform_kwargs_cons, IH. reflexivity.
  - unfold transform_kwargs, transform_kwarg. simpl. now rewrite H.
  - apply transform_kwargs_False.
  - intros v B. unfold transform_kwargs, transform_kwarg. simpl.
    rewrite H, B. now destruct v as [| [|] | |].
  - unfold transform_kwargs, transform_kwarg. simpl.
    destruct (Nat.eqb_spec (String.length k) 1); [lia | reflexivity].
  - apply transform_kwargs_False.
  - intros v B. unfold transform_kwargs, transform_kwarg. simpl.
    destruct (Nat.eqb_spec (String.length k) 1); [lia|].
    rewrite B. now destruct v as [| [|] | |].
  - intros kwargs. induction kwargs as [|[k v] kwargs IH]; [reflexivity|].
    simpl. destruct (is_False v) eqn:F; simpl.
    + destruct v as [| [|] | |]; try discriminate.
      now rewrite transform_kwargs_cons, transform_kwargs_False.
    + rewrite (transform_kwargs_cons (k, v) kwargs), IH.
      now rewrite (transform_kwargs_cons (k, v) (filter _ _)).
Qed.

Lemma transform_kwargs_flags_witness :
  String.length "n" = 1 /\ Py.type_is_bool (Py.VInt 5) = false /\
  transform_kwargs [("n", Py.VInt 5)] = ["-n" ++ Py.str (Py.VInt 5)].
Proof.
  split; [reflexivity|]. split; [reflexivity|].
  destruct transform_kwargs_flags as (_ & Short & _).
  destruct (Short "n" eq_refl) as (_ & _ & Value).
  exact (Value (Py.VInt 5) eq_refl).
Defined.

(** ** The process runner *)

Section ExecuteFacts.

Variable w : World.
Variable trace : Py.value.

(** [execute] in one equation: the log grows by the line of plain
    tracing and the child; a child that cannot be started raises; a
    non-zero status raises when exceptions are asked for; otherwise full
    tracing adds its line and the result has the shape asked for. *)
Lemma execute_outcome (command : list string)
      (istream with_keep_cwd with_extended_output with_exceptions
       with_raw_output : Py.value) (s : state) :
  execute w trace command istream with_keep_cwd with_extended_output
          with_exceptions with_raw_output s
  = let cwd := child_cwd w with_keep_cwd (self s) in
    let started :=
      {| self := self s;
         log := (log s ++ pre_trace trace command
                 ++ [Spawn command cwd istream])%list |} in
    match popen w command cwd istream with
    | inl message => (started, inl (OSError message))
    | inr proc =>
        let stdout_value := captured with_raw_output (stdout_data proc) in
        let stderr_value := captured with_raw_output (stderr_data proc) in
        let status := returncode proc in
        if Py.truthy with_exceptions && negb (Z.eqb status 0)
        then (started, inl (GitCommandError command status stderr_value))
        else ({| self := self s;
                 log := (log started
                         ++ post_trace trace command status
                              stdout_value stderr_value)%list |},
              inr (if Py.truthy with_extended_output
                   then RTuple status stdout_value stderr_value
                   else RStr stdout_value))
    end.
Proof.
  unfold execute, bind, print, Popen, emit, get_self, ret, raise,
    child_cwd, pre_trace, post_trace, full_line, captured.
  destruct (Py.truthy trace && negb (Py.eq_str trace "full")),
    (Py.truthy with_keep_cwd); simpl;
    match goal with
    | |- context [popen w command ?c istream] =>
        destruct (popen w command c istream) as [e|proc]
    end; simpl; rewrite <- ?app_assoc; simpl; try reflexivity;
    destruct (Py.truthy with_raw_output); simpl;
    destruct (Py.truthy with_exceptions && negb (Z.eqb (returncode proc) 0));
    simpl; try reflexivity;
    destruct (Py.eq_str trace "full"); simpl;
    rewrite <- ?app_assoc, ?app_nil_r; simpl;
    repeat match goal with
           | |- context [if Py.nonempty ?x then _ else _] =>
               destruct (Py.nonempty x)
           end; simpl;
    destruct (Py.truthy with_extended_output);
    rewrite <- ?app_assoc; reflexivity.
Qed.

(** [execute] assigns no attribute of the object. *)
Lemma execute_self (command : list string)
      (istream with_keep_cwd with_extended_output with_exceptions
       with_raw_output : Py.value) (s : state) :
  self (fst (execute w trace command istream with_keep_cwd
                     with_extended_output with_exceptions
                     with_raw_output s)) = self s.
Proof.
  rewrite execute_outcome. simpl.
  destruct (popen w command _ istream) as [e|proc]; [reflexivity|].
  now destruct (Py.truthy with_exceptions && negb (Z.eqb (returncode proc) 0)).
Qed.

Lemma spawns_app (a b : list event) :
  spawns (a ++ b) = (spawns a ++ spawns b)%list.
Proof. apply filter_app. Qed.

Lemma spawns_pre_trace (command : list string) :
  spawns (pre_trace trace command) = [].
Proof.
  unfold pre_trace.
  now destruct (Py.truthy trace && negb (Py.eq_str trace "full")).
Qed.

Lemma spawns_post_trace (command : list string) (status : Z) (so se : string) :
  spawns (post_trace trace command status so se) = [].
Proof. unfold post_trace. now destruct (Py.eq_str trace "full"). Qed.

(** Every call of [execute] starts exactly one child, with the command
    and the standard input it was given, in the directory [child_cwd]. *)
Lemma execute_spawns (command : list string)
      (istream with_keep_cwd with_extended_output with_exceptions
       with_raw_output : Py.value) (s : state) :
  spawns (log (fst (execute w trace command istream with_keep_cwd
                            with_extended_output with_exceptions
                            with_raw_output s)))
  = (spawns (log s)
     ++ [Spawn command (child_cwd w with_keep_cwd (self s)) istream])%list.
Proof.
  rewrite execute_outcome. simpl.
  destruct (popen w command _ istream) as [e|proc]; simpl.
  - now rewrite !spawns_app, spawns_pre_trace.
  - destruct (Py.truthy with_exceptions && negb (Z.eqb (returncode proc) 0));
      simpl; rewrite !spawns_app, ?spawns_pre_trace, ?spawns_post_trace;
      simpl; now rewrite ?app_nil_r.
Qed.

End ExecuteFacts.

(** C3.  With a child that ran to its end, [execute] raises exactly when
    [with_exceptions] is true and the status is not zero; what it raises
    is [GitCommandError] with the command, the status and the standard
    error text as captured (stripped unless raw output was asked for); with
    a zero status or [with_exceptions] false it returns. *)
Theorem execute_raises_iff (w : World) (trace : Py.value)
        (command : list string)
        (istream with_keep_cwd with_extended_output with_exceptions
         with_raw_output : Py.value) (s : state) (proc : completed) :
  popen w command (child_cwd w with_keep_cwd (self s)) istream = inr proc ->
  let r := snd (execute w trace command istream with_keep_cwd
                        with_extended_output with_exceptions
                        with_raw_output s) in
  ((exists e, r = inl e) <->
   Py.truthy with_exceptions = true /\ returncode proc <> 0%Z)
  /\ (forall e, r = inl e ->
        e = GitCommandError command (returncode proc)
              (captured with_raw_output (stderr_data proc)))
  /\ (Py.truthy with_exceptions = false \/ returncode proc = 0%Z ->
      exists res, r = inr res).
Proof.
  intros P r. subst r. rewrite execute_outcome. simpl. rewrite P.
  destruct (Py.truthy with_exceptions); simpl;
    destruct (Z.eqb_spec (returncode proc) 0) as [Z0|Z0]; simpl;
    (split; [split|split]);
    try (intros [e E]; discriminate);
    try (intros e E; discriminate);
    try (intros [A B]; congruence);
    try (intros _; now eauto);
    try (intros e E; now inversion E);
    try (intros [A|A]; congruence).
Qed.

Lemma execute_raises_iff_witness :
  snd (execute (one_repo no_env "/tmp" not_a_repo) (Py.VBool false)
               ["git"; "status"] Py.VNone (Py.VBool false) (Py.VBool false)
               (Py.VBool true) (Py.VBool false) (start (fresh "/tmp")))
  = inl (GitCommandError ["git"; "status"] 128 "fatal: not a repo").
Proof.
  destruct (execute_raises_iff (one_repo no_env "/tmp" not_a_repo)
              (Py.VBool false) ["git"; "status"] Py.VNone (Py.VBool false)
              (Py.VBool false) (Py.VBool true) (Py.VBool false)
              (start (fresh "/tmp")) (Completed "" "fatal: not a repo" 128)
              eq_refl) as (Raises & Carries & _).
  destruct (proj2 Raises) as [e E]; [split; [reflexivity | discriminate]|].
  rewrite E. f_equal. exact (Carries e E).
Defined.

(** C7, as the code has it.  A child that ends with status 128, nothing on
    standard output and [fatal: not a repo] on standard error makes
    [execute] raise [GitCommandError] with status 128 and that text when
    [with_exceptions] is true.  When it is false, [execute] returns the
    tuple [(128, '', 'fatal: not a repo')] if [with_extended_output] is
    true, and the standard output text [''] alone if it is not. *)
Theorem execute_not_a_repo (w : World) (trace : Py.value)
        (command : list string)
        (istream with_keep_cwd with_extended_output with_exceptions
         with_raw_output : Py.value) (s : state) :
  popen w command (child_cwd w with_keep_cwd (self s)) istream
  = inr (Completed "" "fatal: not a repo" 128) ->
  let r := snd (execute w trace command istream with_keep_cwd
                        with_extended_output with_exceptions
                        with_raw_output s) in
  (Py.truthy with_exceptions = true ->
   r = inl (GitCommandError command 128 "fatal: not a repo"))
  /\ (Py.truthy with_exceptions = false ->
      Py.truthy with_extended_output = true ->
      r = inr (RTuple 128 "" "fatal: not a repo"))
  /\ (Py.truthy with_exceptions = false ->
      Py.truthy with_extended_output = false ->
      r = inr (RStr "")).
Proof.
  intros P r. subst r. rewrite execute_outcome. simpl. rewrite P. simpl.
  unfold captured.
  destruct (Py.truthy with_raw_output), (Py.truthy with_exceptions),
    (Py.truthy with_extended_output); simpl;
    repeat split; intros; try discriminate; reflexivity.
Qed.

Lemma execute_not_a_repo_witness :
  snd (execute (one_repo no_env "/tmp" not_a_repo) (Py.VBool false)
               ["git"; "status"] Py.VNone (Py.VBool false) (Py.VBool true)
               (Py.VBool false) (Py.VBool false) (start (fresh "/tmp")))
  = inr (RTuple 128 "" "fatal: not a repo").
Proof.
  exact (proj1 (proj2
    (execute_not_a_repo (one_repo no_env "/tmp" not_a_repo) (Py.VBool false)
       ["git"; "status"] Py.VNone (Py.VBool false) (Py.VBool true)
       (Py.VBool false) (Py.VBool false) (start (fresh "/tmp")) eq_refl))
    eq_refl eq_refl).
Defined.

(** C7 as stated fails: with [with_exceptions] false and the other options
    at their defaults, [execute] returns the empty standard output text,
    not the tuple. *)
Lemma not_a_repo_without_extended_output :
  snd (execute (one_repo no_env "/tmp" not_a_repo) (Py.VBool false)
               ["git"; "status"] Py.VNone (Py.VBool false) (Py.VBool false)
               (Py.VBool false) (Py.VBool false) (start (fresh "/tmp")))
  = inr (RStr "")
  /\ inr (RStr "") <> (inr (RTuple 128 "" "fatal: not a repo") : exn + result).
Proof. split; [reflexivity | discriminate]. Qed.

(** [rstrip] removes all the trailing whitespace and nothing else. *)
Lemma rstrip_spec (data : string) :
  (exists ws, data = Py.rstrip data ++ ws /\ Py.all_chars Py.isspace ws = true)
  /\ (forall r c, Py.rstrip data = r ++ String c "" -> Py.isspace c = false).
Proof.
  split; [apply rstrip_by_suffix | intros r c; apply rstrip_by_last].
Qed.

(** C8.  With a child that ran to its end, what [execute] raises or
    returns is built from the two captured streams: each is the text read
    from the pipe when [with_raw_output] is true, and that text without its
    trailing whitespace when it is false.  A child that ends with status 0
    and wrote [abc] and a newline to standard output and nothing to
    standard error gives ['abc'] under the default options and
    [(0, 'abc', '')] with [with_extended_output=True]. *)
Theorem execute_output (w : World) (trace : Py.value) (command : list string)
        (s : state) :
  (forall istream with_keep_cwd with_extended_output with_exceptions
          with_raw_output proc,
     popen w command (child_cwd w with_keep_cwd (self s)) istream = inr proc ->
     let out := if Py.truthy with_raw_output then stdout_data proc
                else Py.rstrip (stdout_data proc) in
     let err := if Py.truthy with_raw_output then stderr_data proc
                else Py.rstrip (stderr_data proc) in
     snd (execute w trace command istream with_keep_cwd with_extended_output
                  with_exceptions with_raw_output s)
     = if Py.truthy with_exceptions && negb (Z.eqb (returncode proc) 0)
       then inl (GitCommandError command (returncode proc) err)
       else inr (if Py.truthy with_extended_output
                 then RTuple (returncode proc) out err
                 else RStr out))
  /\ (forall data,
        (exists ws, data = Py.rstrip data ++ ws
                    /\ Py.all_chars Py.isspace ws = true)
        /\ (forall r c, Py.rstrip data = r ++ String c "" ->
                        Py.isspace c = false))
  /\ (popen w command (_cwd (self s)) Py.VNone
      = inr (Completed ("abc" ++ newline) "" 0) ->
      snd (execute_with w trace command [] s) = inr (RStr "abc")
      /\ snd (execute_with w trace command
                           [("with_extended_output", Py.VBool true)] s)
         = inr (RTuple 0 "abc" "")).
Proof.
  split; [|split].
  - intros istream keep ext exc raw proc P out err.
    rewrite execute_outcome. simpl. rewrite P. unfold captured.
    subst out err.
    now destruct (Py.truthy exc && negb (Z.eqb (returncode proc) 0)).
  - apply rstrip_spec.
  - intros P. unfold execute_with. simpl.
    rewrite !execute_outcome. simpl. unfold child_cwd. simpl.
    rewrite P. split; reflexivity.
Qed.

Lemma execute_output_witness :
  snd (execute_with (one_repo no_env "/tmp" prints_abc) (Py.VBool false)
                    ["git"; "status"] [] (start (fresh "/tmp")))
  = inr (RStr "abc").
Proof.
  destruct (execute_output (one_repo no_env "/tmp" prints_abc)
              (Py.VBool false) ["git"; "status"] (start (fresh "/tmp")))
    as (_ & _ & Scenario).
  exact (proj1 (Scenario eq_refl)).
Defined.

(** C6, as the code has it.  With a child that ran to its end and the
    trace flag true: when the flag is not ['full'], the command joined by
    spaces is printed before the child is started and nothing is printed
    after it; when the flag is ['full'], nothing is printed before the
    child is started, whether [execute] raises or not, and if [execute]
    does not raise, one line is printed after it: the command, [->], the
    status, then standard output and standard error if standard error is
    not empty, standard output alone if only standard error is empty, and
    nothing more if both are.  When [execute] raises under ['full'], the
    child is all the log gains. *)
Theorem execute_trace (w : World) (trace : Py.value) (command : list string)
        (istream with_keep_cwd with_extended_output with_exceptions
         with_raw_output : Py.value) (s : state) (proc : completed) :
  popen w command (child_cwd w with_keep_cwd (self s)) istream = inr proc ->
  Py.truthy trace = true ->
  let s' := fst (execute w trace command istream with_keep_cwd
                         with_extended_output with_exceptions
                         with_raw_output s) in
  let child := Spawn command (child_cwd w with_keep_cwd (self s)) istream in
  let out := captured with_raw_output (stdout_data proc) in
  let err := captured with_raw_output (stderr_data proc) in
  (Py.eq_str trace "full" = false ->
   log s' = (log s ++ [Print (Py.join " " command); child])%list)
  /\ (Py.eq_str trace "full" = true ->
      Py.truthy with_exceptions = false \/ returncode proc = 0%Z ->
      log s' =
      (log s ++
       [child;
        Print (Py.str_of_list command ++ " -> "
               ++ Py.str_of_Z (returncode proc)
               ++ (if Py.nonempty err
                   then ": '" ++ out ++ "' !! '" ++ err ++ "'"
                   else if Py.nonempty out then ": '" ++ out ++ "'"
                   else ""))])%list)
  /\ (Py.eq_str trace "full" = true ->
      Py.truthy with_exceptions = true -> returncode proc <> 0%Z ->
      log s' = (log s ++ [child])%list)
  /\ (Py.eq_str trace "full" = true ->
      exists after, log s' = (log s ++ child :: after)%list).
Proof.
  intros P T s' child out err. subst s' child out err.
  rewrite execute_outcome. simpl. rewrite P.
  unfold pre_trace, post_trace, full_line. rewrite T.
  split; [|split; [|split]].
  - intros F. rewrite F. simpl.
    destruct (Py.truthy with_exceptions && negb (Z.eqb (returncode proc) 0));
      simpl; now rewrite <- ?app_assoc, ?app_nil_r.
  - intros F R. rewrite F. simpl.
    assert (Py.truthy with_exceptions && negb (Z.eqb (returncode proc) 0)
            = false) as ->.
    { destruct R as [-> | ->]; [reflexivity | apply andb_false_r]. }
    simpl. rewrite <- app_assoc. simpl. do 3 f_equal.
    destruct (Py.nonempty (captured with_raw_output (stderr_data proc)));
      [reflexivity|].
    destruct (Py.nonempty (captured with_raw_output (stdout_data proc)));
      [reflexivity|].
    now rewrite !append_empty_r.
  - intros F E R. rewrite F, E. simpl.
    destruct (Z.eqb_spec (returncode proc) 0) as [Z0|Z0]; [contradiction|].
    reflexivity.
  - intros F. rewrite F. simpl.
    destruct (Py.truthy with_exceptions && negb (Z.eqb (returncode proc) 0));
      simpl; rewrite <- ?app_assoc; simpl; eexists; reflexivity.
Qed.

Lemma execute_trace_witness :
  log (fst (execute (one_repo no_env "/tmp" prints_abc) (Py.VStr "1")
                    ["git"; "status"] Py.VNone (Py.VBool false)
                    (Py.VBool false) (Py.VBool true) (Py.VBool false)
                    (start (fresh "/tmp"))))
  = [Print "git status"; Spawn ["git"; "status"] None Py.VNone].
Proof.
  exact (proj1
    (execute_trace (one_repo no_env "/tmp" prints_abc) (Py.VStr "1")
       ["git"; "status"] Py.VNone (Py.VBool false) (Py.VBool false)
       (Py.VBool true) (Py.VBool false) (start (fresh "/tmp"))
       (Completed ("abc" ++ newline) "" 0) eq_refl eq_refl) eq_refl).
Defined.

(** C6 as stated fails.  With the flag ['full'] the command is not printed
    before the child is started: the first thing logged is the child and
    the only line comes after it.  And when [execute] raises, full tracing
    prints no line at all. *)
Lemma full_trace_prints_nothing_before_the_child :
  log (fst (execute (one_repo no_env "/tmp" prints_abc) (Py.VStr "full")
                    ["git"; "status"] Py.VNone (Py.VBool false)
                    (Py.VBool false) (Py.VBool true) (Py.VBool false)
                    (start (fresh "/tmp"))))
  = [Spawn ["git"; "status"] None Py.VNone;
     Print "['git', 'status'] -> 0: 'abc'"]
  /\ log (fst (execute (one_repo no_env "/tmp" not_a_repo) (Py.VStr "full")
                       ["git"; "status"] Py.VNone (Py.VBool false)
                       (Py.VBool false) (Py.VBool true) (Py.VBool false)
                       (start (fresh "/tmp"))))
     = [Spawn ["git"; "status"] None Py.VNone].
Proof. split; reflexivity. Qed.

(** ** Resolution *)

Section ResolutionFacts.

Variable w : World.

(** [get_git_dir] on an object with no cached directory, when neither
    the override nor the walk gives a control directory: the object keeps
    what the environment held. *)
Lemma get_git_dir_nothing_valid (g : Git) :
  Py.truthy_opt (_git_dir g) = false ->
  match getenv w "GIT_DIR" with
  | Some d => Py.nonempty d = false \/ _is_git_dir w d = false
  | None => True
  end ->
  no_repository_above w (_location g) ->
  get_git_dir w g
  = Some (set_git_dir g (getenv w "GIT_DIR"), getenv w "GIT_DIR").
Proof.
  intros C E N. unfold get_git_dir. rewrite C.
  cbn [negb _git_dir _location set_git_dir].
  assert (Py.truthy_opt (getenv w "GIT_DIR")
          && match getenv w "GIT_DIR" with
             | Some d => _is_git_dir w d
             | None => false
             end = false) as ->.
  { destruct (getenv w "GIT_DIR") as [d|]; simpl; [|reflexivity].
    destruct E as [-> | ->]; [reflexivity | apply andb_false_r]. }
  rewrite walk_finds_nothing; [reflexivity | lia | exact N].
Qed.

End ResolutionFacts.

(** C2, as the code has it.  With [GIT_DIR] unset or empty, and no
    directory of the upward walk from the starting path a control
    directory in either form, [get_git_dir] returns [None] or [''] without
    raising, and after [refresh] the control directory is absent or empty
    and [_is_in_repo] is false. *)
Theorem no_repository_resolution (w : World) (g : Git) :
  getenv w "GIT_DIR" = None \/ getenv w "GIT_DIR" = Some "" ->
  no_repository_above w (_location g) ->
  Py.truthy_opt (getenv w "GIT_DIR") = false
  /\ get_git_dir w (set_git_dir g None)
     = Some (set_git_dir g (getenv w "GIT_DIR"), getenv w "GIT_DIR")
  /\ refresh w g
     = Some {| _location := _location g; _is_bare_repo := _is_bare_repo g;
               _git_dir := getenv w "GIT_DIR"; _is_in_repo := false;
               _work_tree := None; _cwd := getenv w "GIT_DIR" |}.
Proof.
  intros E N.
  assert (T : Py.truthy_opt (getenv w "GIT_DIR") = false)
    by (destruct E as [-> | ->]; reflexivity).
  assert (G : get_git_dir w (set_git_dir g None)
              = Some (set_git_dir g (getenv w "GIT_DIR"), getenv w "GIT_DIR")).
  { rewrite get_git_dir_nothing_valid; [reflexivity | reflexivity | | exact N].
    destruct E as [-> | ->]; [exact I | now left]. }
  split; [exact T|]. split; [exact G|].
  unfold refresh. rewrite G. simpl. rewrite T. reflexivity.
Qed.

Lemma no_repository_resolution_witness :
  refresh (one_repo no_env "/home/user" prints_abc) (fresh "/home/user")
  = Some {| _location := "/home/user"; _is_bare_repo := false;
            _git_dir := None; _is_in_repo := false;
            _work_tree := None; _cwd := None |}.
Proof.
  exact (proj2 (proj2
    (no_repository_resolution (one_repo no_env "/home/user" prints_abc)
       (fresh "/home/user") (or_introl eq_refl)
       (no_repository_aboveb_sound
          (one_repo no_env "/home/user" prints_abc) "/home/user" eq_refl)))).
Defined.

(** C2 as stated fails: nothing on the way up from [/home/user] is a
    control directory, yet with [GIT_DIR] naming the repository in
    [/srv/repo] resolution yields that directory and [_is_in_repo] is
    true. *)
Lemma override_resolves_outside_a_repository :
  no_repository_above
    (one_repo (env_git_dir "/srv/repo/.git") "/home/user" prints_abc)
    "/home/user"
  /\ refresh (one_repo (env_git_dir "/srv/repo/.git") "/home/user" prints_abc)
             (fresh "/home/user")
     = Some {| _location := "/home/user"; _is_bare_repo := false;
               _git_dir := Some "/srv/repo/.git"; _is_in_repo := true;
               _work_tree := Some "/srv/repo"; _cwd := Some "/srv/repo" |}.
Proof.
  split; [apply no_repository_aboveb_sound|]; reflexivity.
Qed.

(** C10.  With [GIT_DIR] set to a non-empty path that is not a control
    directory, and no control directory on the way up from the starting
    path, [get_git_dir] on an object with nothing cached returns the
    override path, and after [refresh] the object holds that path as its
    control directory and [_is_in_repo] is true. *)
Theorem invalid_override_is_kept (w : World) (g : Git) (d : string) :
  getenv w "GIT_DIR" = Some d ->
  d <> "" ->
  _is_git_dir w d = false ->
  no_repository_above w (_location g) ->
  (Py.truthy_opt (_git_dir g) = false ->
   get_git_dir w g = Some (set_git_dir g (Some d), Some d))
  /\ exists g', refresh w g = Some g'
                /\ _git_dir g' = Some d /\ _is_in_repo g' = true.
Proof.
  intros E D V N.
  assert (G : forall g0, _location g0 = _location g ->
                Py.truthy_opt (_git_dir g0) = false ->
                get_git_dir w g0 = Some (set_git_dir g0 (Some d), Some d)).
  { intros g0 L C. rewrite get_git_dir_nothing_valid; rewrite ?E, ?L; auto. }
  split; [now apply G|].
  unfold refresh. rewrite (G (set_git_dir g None) eq_refl eq_refl). simpl.
  assert (T : Py.nonempty d = true) by now apply nonempty_true.
  rewrite T. simpl.
  destruct (_is_bare_repo g) eqn:B; simpl; [now eauto|].
  match goal with |- context [get_work_tree w ?x] =>
    destruct (get_work_tree_returns w x) as (g6 & t & W & K1 & K2 & _);
      [exact T|]
  end.
  rewrite W. eexists. split; [reflexivity|]. simpl. now rewrite K1, K2.
Qed.

Lemma invalid_override_is_kept_witness :
  get_git_dir (one_repo (env_git_dir "/nowhere") "/home/user" prints_abc)
              (fresh "/home/user")
  = Some (set_git_dir (fresh "/home/user") (Some "/nowhere"), Some "/nowhere").
Proof.
  refine (proj1
    (invalid_override_is_kept
       (one_repo (env_git_dir "/nowhere") "/home/user" prints_abc)
       (fresh "/home/user") "/nowhere" eq_refl _ eq_refl
       (no_repository_aboveb_sound
          (one_repo (env_git_dir "/nowhere") "/home/user" prints_abc)
          "/home/user" eq_refl)) eq_refl).
  discriminate.
Defined.

(** ** Dispatch *)

Lemma dict_del_absent (k : string) (d : dict) :
  dict_get k d = None -> dict_del k d = d.
Proof.
  induction d as [|[k' v] d IH]; simpl; [reflexivity|].
  destruct (String.eqb k' k); simpl; [discriminate|].
  intros H. now rewrite IH.
Qed.

Lemma dict_get_del_other (k k' : string) (d : dict) :
  k <> k' -> dict_get k (dict_del k' d) = dict_get k d.
Proof.
  intros N. induction d as [|[k0 v] d IH]; simpl; [reflexivity|].
  destruct (String.eqb_spec k0 k'), (String.eqb_spec k0 k); simpl;
    subst; try congruence.
  - now rewrite String.eqb_refl.
  - destruct (String.eqb_spec k0 k); congruence.
Qed.

(** One turn of the loop removes the key from [kwargs], whether it was
    there or not, and files its value when it was. *)
Lemma pop_execute_kwarg_eq (_kwargs kwargs : dict) (kwarg : string) :
  pop_execute_kwarg (_kwargs, kwargs) kwarg
  = (match dict_get kwarg kwargs with
     | Some v => dict_set kwarg v _kwargs
     | None => _kwargs
     end, dict_del kwarg kwargs).
Proof.
  unfold pop_execute_kwarg, dict_pop.
  destruct (dict_get kwarg kwargs) eqn:E; [reflexivity|].
  now rewrite dict_del_absent.
Qed.

Lemma dict_del_execute_kwargs (kwargs : dict) :
  dict_del "with_raw_output"
    (dict_del "with_exceptions"
       (dict_del "with_extended_output"
          (dict_del "with_keep_cwd" (dict_del "istream" kwargs))))
  = cli_kwargs kwargs.
Proof.
  unfold cli_kwargs, dict_del, execute_kwargs.
  induction kwargs as [|[k v] kwargs IH]; [reflexivity|].
  cbn [filter existsb fst].
  destruct (String.eqb k "istream"); cbn [negb orb filter fst];
    [exact IH|].
  destruct (String.eqb k "with_keep_cwd"); cbn [negb orb filter fst];
    [exact IH|].
  destruct (String.eqb k "with_extended_output"); cbn [negb orb filter fst];
    [exact IH|].
  destruct (String.eqb k "with_exceptions"); cbn [negb orb filter fst];
    [exact IH|].
  destruct (String.eqb k "with_raw_output"); cbn [negb orb filter fst];
    [exact IH|].
  now rewrite IH.
Qed.

(** The loop splits the keyword arguments into the options of [execute]
    and the rest, which keeps its order. *)
Lemma pop_execute_kwargs_eq (kwargs : dict) :
  pop_execute_kwargs kwargs = (execute_options kwargs, cli_kwargs kwargs).
Proof.
  unfold pop_execute_kwargs, execute_kwargs. cbn [fold_left].
  rewrite !pop_execute_kwarg_eq, dict_del_execute_kwargs. f_equal.
  rewrite !dict_get_del_other by discriminate.
  unfold execute_options, execute_kwargs. cbn [flat_map].
  destruct (dict_get "istream" kwargs), (dict_get "with_keep_cwd" kwargs),
    (dict_get "with_extended_output" kwargs),
    (dict_get "with_exceptions" kwargs), (dict_get "with_raw_output" kwargs);
    reflexivity.
Qed.

Lemma dict_get_execute_options (kwargs : dict) (name : string) :
  In name execute_kwargs ->
  dict_get name (execute_options kwargs) = dict_get name kwargs.
Proof.
  unfold execute_options, execute_kwargs. cbn [flat_map In].
  intros H.
  destruct (dict_get "istream" kwargs) eqn:E1,
    (dict_get "with_keep_cwd" kwargs) eqn:E2,
    (dict_get "with_extended_output" kwargs) eqn:E3,
    (dict_get "with_exceptions" kwargs) eqn:E4,
    (dict_get "with_raw_output" kwargs) eqn:E5;
    repeat (destruct H as [<- | H]; [simpl; congruence|]);
    contradiction.
Qed.

(** [method_missing] is [execute] on the command it builds, with each
    option at the value the call gave it, or at its default. *)
Lemma method_missing_eq (w : World) (trace : Py.value) (method : string)
      (args : list Py.value) (kwargs : dict) :
  method_missing w trace method args kwargs
  = execute w trace
      (["git"; dashify method] ++ transform_kwargs (cli_kwargs kwargs)
       ++ map Py.str args)%list
      (option_value kwargs "istream" Py.VNone)
      (option_value kwargs "with_keep_cwd" (Py.VBool false))
      (option_value kwargs "with_extended_output" (Py.VBool false))
      (option_value kwargs "with_exceptions" (Py.VBool true))
      (option_value kwargs "with_raw_output" (Py.VBool false)).
Proof.
  unfold method_missing. rewrite pop_execute_kwargs_eq.
  unfold execute_with, option_value.
  rewrite !dict_get_execute_options by (unfold execute_kwargs; simpl; tauto).
  reflexivity.
Qed.

(** C5.  A call of [method] with positional arguments [args] and keyword
    arguments [kwargs] runs [execute] on the command
    [git], the dashified method name, the flags of the keyword arguments
    that are not options of [execute], and the positional arguments, each
    through [str], in their order: all flags come before all positional
    arguments.  That command is the one the child is started with.  When
    no keyword is an option of [execute], the flags are those of [kwargs]
    as a whole. *)
Theorem method_missing_argv (w : World) (trace : Py.value) (method : string)
        (args : list Py.value) (kwargs : dict) (s : state) :
  let flags := transform_kwargs (cli_kwargs kwargs) in
  let argv := (["git"; dashify method] ++ flags ++ map Py.str args)%list in
  method_missing w trace method args kwargs s
  = execute_with w trace argv (execute_options kwargs) s
  /\ (exists cwd stdin,
        spawns (log (fst (method_missing w trace method args kwargs s)))
        = (spawns (log s) ++ [Spawn argv cwd stdin])%list)
  /\ ((forall name, In name execute_kwargs -> dict_get name kwargs = None) ->
      flags = transform_kwargs kwargs).
Proof.
  intros flags argv. split; [|split].
  - unfold method_missing. now rewrite pop_execute_kwargs_eq.
  - rewrite method_missing_eq, execute_spawns. now eauto.
  - intros H. subst flags. rewrite <- dict_del_execute_kwargs.
    rewrite !dict_del_absent; try reflexivity;
      rewrite ?dict_get_del_other by discriminate;
      apply H; unfold execute_kwargs; simpl; tauto.
Qed.

Lemma method_missing_argv_witness :
  transform_kwargs
    (cli_kwargs [("max_count", Py.VInt 10); ("header", Py.VBool true)])
  = transform_kwargs [("max_count", Py.VInt 10); ("header", Py.VBool true)].
Proof.
  refine (proj2 (proj2
    (method_missing_argv (one_repo no_env "/srv/repo" prints_abc)
       (Py.VBool false) "rev_list" [Py.VStr "master"]
       [("max_count", Py.VInt 10); ("header", Py.VBool true)]
       (start (fresh "/srv/repo")))) _).
  intros name H. simpl in H.
  repeat (destruct H as [<- | H]; [reflexivity|]). contradiction.
Defined.

Example rev_list_call :
  method_missing (one_repo no_env "/srv/repo" prints_abc) (Py.VBool false)
    "rev_list" [Py.VStr "master"; Py.VInt 3]
    [("max_count", Py.VInt 10); ("with_extended_output", Py.VBool true);
     ("header", Py.VBool true)]
    (start (fresh "/srv/repo"))
  = ({| self := fresh "/srv/repo";
        log := [Spawn ["git"; "rev-list"; "--max-count=10"; "--header";
                       "master"; "3"] None Py.VNone] |},
     inr (RTuple 0 "abc" "")).
Proof. reflexivity. Qed.

(** ** What a call leaves alone *)

Lemma child_dirs_app (a b : list event) :
  child_dirs (a ++ b) = (child_dirs a ++ child_dirs b)%list.
Proof. apply flat_map_app. Qed.

Lemma child_dirs_spawns (l : list event) : child_dirs (spawns l) = child_dirs l.
Proof.
  induction l as [|[line|c d i] l IH]; simpl; [reflexivity | exact IH|].
  now rewrite IH.
Qed.

Lemma method_missing_self (w : World) (trace : Py.value) (method : string)
      (args : list Py.value) (kwargs : dict) (s : state) :
  self (fst (method_missing w trace method args kwargs s)) = self s.
Proof. rewrite method_missing_eq. apply execute_self. Qed.

Lemma method_missing_child_dirs (w : World) (trace : Py.value)
      (method : string) (args : list Py.value) (kwargs : dict) (s : state) :
  child_dirs (log (fst (method_missing w trace method args kwargs s)))
  = (child_dirs (log s)
     ++ [child_cwd w (option_value kwargs "with_keep_cwd" (Py.VBool false))
                   (self s)])%list.
Proof.
  rewrite <- child_dirs_spawns, method_missing_eq, execute_spawns.
  now rewrite child_dirs_app, child_dirs_spawns.
Qed.

(** [execute] consults the world for the current directory and the child
    only: the environment and the file system play no part. *)
Lemma execute_reads (w1 w2 : World) (trace : Py.value) (command : list string)
      (istream with_keep_cwd with_extended_output with_exceptions
       with_raw_output : Py.value) (s : state) :
  getcwd w1 = getcwd w2 ->
  (forall c d i, popen w1 c d i = popen w2 c d i) ->
  execute w1 trace command istream with_keep_cwd with_extended_output
          with_exceptions with_raw_output s
  = execute w2 trace command istream with_keep_cwd with_extended_output
            with_exceptions with_raw_output s.
Proof.
  intros C P. rewrite !execute_outcome. unfold child_cwd.
  now rewrite C, P.
Qed.

(** Resolution never moves the starting location. *)
Lemma get_git_dir_location (w : World) (g g' : Git) (r : option string) :
  get_git_dir w g = Some (g', r) -> _location g' = _location g.
Proof.
  unfold get_git_dir.
  destruct (negb (Py.truthy_opt (_git_dir g))); [|intros Q; now inversion Q].
  match goal with |- context [if ?c then _ else _] => destruct c end;
    [intros Q; now inversion Q|].
  match goal with
  | |- context [walk w ?n ?p ?x] =>
      destruct (walk w n p x) as [g3|] eqn:W; [|discriminate];
        apply walk_frame in W
  end.
  intros Q. inversion Q; subst. now rewrite W.
Qed.

Lemma refresh_location (w : World) (g g' : Git) :
  refresh w g = Some g' -> _location g' = _location g.
Proof.
  unfold refresh.
  destruct (get_git_dir w (set_git_dir g None)) as [[g2 r]|] eqn:G;
    [|discriminate].
  apply get_git_dir_location in G. simpl in G.
  match goal with |- context [if ?c then _ else _] => destruct c eqn:C end.
  - apply andb_true_iff in C. destruct C as [C _].
    match type of C with Py.truthy_opt (_git_dir ?x) = true =>
      destruct (get_work_tree_returns w x C)
        as (g6 & t & W & _ & _ & _ & K) end.
    rewrite W. intros Q. inversion Q; subst. simpl. now rewrite K.
  - intros Q. inversion Q; subst. exact G.
Qed.

(** C9.  [__init__] resolves the directories once, through [refresh].
    After it, no sequence of dispatched calls changes the object:
    [_git_dir], [_work_tree], [_cwd], [_is_bare_repo] and [_is_in_repo]
    (and [_location]) are as construction left them.  Every call starts
    one child, in [_cwd] as construction fixed it unless the call sets
    [with_keep_cwd], in which case it is the current directory.  Neither
    [execute] nor [method_missing] assigns an attribute, whatever the state
    they start from, and neither reads the environment or the file system:
    they give the same outcome in two worlds with the same current
    directory and the same children. *)
Theorem dispatch_keeps_location (w0 : World) (git_dir : option string)
        (bare_repo : bool) (g : Git) (trace : Py.value)
        (calls : list (World * call)) (printed : list event) :
  __init__ w0 git_dir bare_repo = Some g ->
  let s' := run_calls trace calls {| self := g; log := printed |} in
  __init__ w0 git_dir bare_repo
  = refresh w0 {| _location := _location g; _is_bare_repo := bare_repo;
                  _git_dir := None; _is_in_repo := false;
                  _work_tree := None; _cwd := None |}
  /\ self s' = g
  /\ child_dirs (log s')
     = (child_dirs printed
        ++ map (fun wc : World * call =>
                  if Py.truthy (keeps_cwd (snd wc))
                  then Some (getcwd (fst wc)) else _cwd g)
               calls)%list
  /\ (forall w command istream with_keep_cwd with_extended_output
             with_exceptions with_raw_output s,
        self (fst (execute w trace command istream with_keep_cwd
                           with_extended_output with_exceptions
                           with_raw_output s)) = self s)
  /\ (forall w method args kwargs s,
        self (fst (method_missing w trace method args kwargs s)) = self s)
  /\ (forall w1 w2 method args kwargs s,
        getcwd w1 = getcwd w2 ->
        (forall c d i, popen w1 c d i = popen w2 c d i) ->
        method_missing w1 trace method args kwargs s
        = method_missing w2 trace method args kwargs s).
Proof.
  intros Init s'. split; [|split; [|split; [|split; [|split]]]].
  - unfold __init__ in *. rewrite (refresh_location _ _ _ Init). reflexivity.
  - subst s'. generalize printed. clear Init.
    induction calls as [|[w c] calls IH]; intros l; simpl; [reflexivity|].
    pose proof (method_missing_self w trace (call_method c) (call_args c)
                  (call_kwargs c) {| self := g; log := l |}) as S.
    destruct (method_missing w trace (call_method c) (call_args c)
                (call_kwargs c) {| self := g; log := l |}) as [[g1 l1] r].
    simpl in S. subst g1. apply IH.
  - subst s'. generalize printed. clear Init.
    induction calls as [|[w c] calls IH]; intros l; simpl;
      [now rewrite app_nil_r|].
    pose proof (method_missing_self w trace (call_method c) (call_args c)
                  (call_kwargs c) {| self := g; log := l |}) as S.
    pose proof (method_missing_child_dirs w trace (call_method c)
                  (call_args c) (call_kwargs c) {| self := g; log := l |})
      as D.
    destruct (method_missing w trace (call_method c) (call_args c)
                (call_kwargs c) {| self := g; log := l |}) as [[g1 l1] r].
    cbn [fst self log] in *. subst g1. rewrite IH, D.
    unfold child_cwd, keeps_cwd. now rewrite <- app_assoc.
  - intros. apply execute_self.
  - intros. apply method_missing_self.
  - intros w1 w2 method args kwargs s C P.
    rewrite !method_missing_eq. now apply execute_reads.
Qed.

Lemma dispatch_keeps_location_witness :
  self (run_calls (Py.VStr "full")
          [(one_repo no_env "/tmp" prints_abc,
            {| call_method := "rev_list"; call_args := [Py.VStr "master"];
               call_kwargs := [("max_count", Py.VInt 10)] |});
           (one_repo no_env "/tmp" not_a_repo,
            {| call_method := "status"; call_args := [];
               call_kwargs := [("with_keep_cwd", Py.VBool true)] |})]
          (start {| _location := "/srv/repo/sub"; _is_bare_repo := false;
                    _git_dir := Some "/srv/repo/.git"; _is_in_repo := true;
                    _work_tree := Some "/srv/repo";
                    _cwd := Some "/srv/repo" |}))
  = {| _location := "/srv/repo/sub"; _is_bare_repo := false;
       _git_dir := Some "/srv/repo/.git"; _is_in_repo := true;
       _work_tree := Some "/srv/repo"; _cwd := Some "/srv/repo" |}.
Proof.
  exact (proj1 (proj2
    (dispatch_keeps_location (one_repo no_env "/srv/repo/sub" prints_abc)
       None false _ (Py.VStr "full") _ [] eq_refl))).
Defined.

(** ** Sample runs *)

Example rstrip_newline : Py.rstrip ("abc" ++ newline) = "abc".
Proof. reflexivity. Qed.

Example split_nested : PosixPath.split "/home/u/repo" = ("/home/u", "repo").
Proof. reflexivity. Qed.

Example split_root : PosixPath.split "/" = ("/", "").
Proof. reflexivity. Qed.

Example split_top : PosixPath.split "/home" = ("/", "home").
Proof. reflexivity. Qed.

Example ancestors_nested :
  ancestors "/srv/repo/sub" = ["/srv/repo/sub"; "/srv/repo"; "/srv"; "/"].
Proof. reflexivity. Qed.

Example abspath_parent :
  PosixPath.abspath "/" (PosixPath.join "/home/u/repo/.git" "..")
  = "/home/u/repo".
Proof. reflexivity. Qed.

Example str_of_list_two :
  Py.str_of_list ["git"; "rev-list"] = "['git', 'rev-list']".
Proof. reflexivity. Qed.

Example init_inside_work_tree :
  __init__ (one_repo no_env "/srv/repo/sub" prints_abc) None false
  = Some {| _location := "/srv/repo/sub"; _is_bare_repo := false;
            _git_dir := Some "/srv/repo/.git"; _is_in_repo := true;
            _work_tree := Some "/srv/repo"; _cwd := Some "/srv/repo" |}.
Proof. reflexivity. Qed.

Example init_bare :
  __init__ (one_repo no_env "/home" prints_abc) (Some "/srv/repo/.git") true
  = Some {| _location := "/srv/repo/.git"; _is_bare_repo := true;
            _git_dir := Some "/srv/repo/.git"; _is_in_repo := true;
            _work_tree := None; _cwd := Some "/srv/repo/.git" |}.
Proof. reflexivity. Qed.

(** * Further properties of the class *)

(** ** Termination of the upward walk *)

Lemma walk_fuel_irrelevant (w : World) (fuel1 : nat) :
  forall (fuel2 : nat) (p : string) (g : Git),
    String.length p < fuel1 -> String.length p < fuel2 ->
    walk w fuel1 p g = walk w fuel2 p g.
Proof.
  induction fuel1 as [|fuel1 IH]; intros fuel2 p g L1 L2; [lia|].
  destruct fuel2 as [|fuel2]; [lia|]. simpl.
  destruct (Py.nonempty p); [|reflexivity].
  destruct (_is_git_dir w p); [reflexivity|].
  destruct (_is_git_dir w (PosixPath.join p ".git")); [reflexivity|].
  destruct (PosixPath.split p) as [h t] eqn:E.
  destruct (Py.nonempty t) eqn:T; simpl; [|reflexivity].
  apply nonempty_true in T.
  pose proof (dirname_shorter p) as D. unfold dirname in D.
  rewrite E in D. simpl in D. specialize (D T).
  apply IH; lia.
Qed.

(** X1.  The loop of [get_git_dir] ends on every starting path, absolute
    or not, normalised or not: each turn that goes on does so with a
    strictly shorter path, so any number of turns above the length of the
    path gives the same answer as the one [get_git_dir] allows.  Hence
    [get_git_dir], [refresh] and [__init__] always return. *)
Theorem upward_walk_terminates (w : World) :
  (forall fuel p g,
     String.length p < fuel ->
     exists g', walk w fuel p g = Some g'
                /\ walk w (S (String.length p)) p g = Some g')
  /\ (forall g, exists g' r, get_git_dir w g = Some (g', r))
  /\ (forall g, exists g', refresh w g = Some g')
  /\ (forall git_dir bare_repo, exists g, __init__ w git_dir bare_repo = Some g).
Proof.
  repeat split.
  - intros fuel p g L. destruct (walk_returns w fuel p g L) as [g' W].
    exists g'. split; [exact W|].
    rewrite <- W. apply walk_fuel_irrelevant; lia.
  - intros g. destruct (get_git_dir_returns w g) as (g' & r & G & _).
    now eauto.
  - apply refresh_returns.
  - intros git_dir bare_repo. unfold __init__. apply refresh_returns.
Qed.

(** ** What resolution leaves in the object *)

Lemma set_git_dir_twice (g : Git) (a b : option string) :
  set_git_dir (set_git_dir g a) b = set_git_dir g b.
Proof. reflexivity. Qed.

(** [get_git_dir] assigns [_git_dir] and nothing else, and returns what it
    left there. *)
Lemma get_git_dir_frame (w : World) (g g' : Git) (r : option string) :
  get_git_dir w g = Some (g', r) -> r = _git_dir g' /\ g' = set_git_dir g r.
Proof.
  unfold get_git_dir.
  destruct (negb (Py.truthy_opt (_git_dir g))).
  - match goal with |- context [if ?c then _ else _] => destruct c end.
    + intros Q. inversion Q; subst. now split.
    + match goal with
      | |- context [walk w ?n ?p ?x] =>
          destruct (walk w n p x) as [g3|] eqn:W; [|discriminate];
            apply walk_frame in W
      end.
      intros Q. inversion Q; subst. split; [reflexivity|].
      rewrite W at 1. apply set_git_dir_twice.
  - intros Q. inversion Q; subst. split; [reflexivity | now destruct g'].
Qed.

(** The work tree [get_work_tree] settles on for the control directory
    [d]: the override when it names a directory, the parent of [d] if not. *)
Lemma get_work_tree_fresh (w : World) (g : Git) (d : string) :
  _is_bare_repo g = false -> _work_tree g = None -> _git_dir g = Some d ->
  let t := match work_tree_override w with
           | Some t => t
           | None => PosixPath.abspath (getcwd w) (PosixPath.join d "..")
           end in
  get_work_tree w g = Some (set_work_tree g (Some t), Some t).
Proof.
  intros B T D t. subst t. unfold get_work_tree, work_tree_override.
  rewrite B, T. cbn [Py.truthy_opt negb _work_tree _git_dir set_work_tree].
  rewrite D.
  destruct (getenv w "GIT_WORK_TREE") as [t|]; cbn [Py.truthy_opt negb orb];
    [|reflexivity].
  destruct (Py.nonempty t); cbn [negb orb andb]; [|reflexivity].
  destruct (isdir w t); cbn [negb]; [|reflexivity].
  now destruct g.
Qed.

(** [refresh] in closed form: every attribute it leaves is a function of
    the world, the starting location and the bare flag. *)
Lemma refresh_shape (w : World) (g g' : Git) :
  refresh w g = Some g' ->
  exists r,
    get_git_dir w (set_git_dir g None) = Some (set_git_dir g r, r)
    /\ g' = if Py.truthy_opt r && negb (_is_bare_repo g)
            then
              let t := match work_tree_override w with
                       | Some t => t
                       | None =>
                           PosixPath.abspath (getcwd w)
                             (PosixPath.join
                                (match r with Some d => d | None => "" end)
                                "..")
                       end in
              {| _location := _location g; _is_bare_repo := _is_bare_repo g;
                 _git_dir := r; _is_in_repo := true;
                 _work_tree := Some t; _cwd := Some t |}
            else
              {| _location := _location g; _is_bare_repo := _is_bare_repo g;
                 _git_dir := r; _is_in_repo := Py.truthy_opt r;
                 _work_tree := None; _cwd := r |}.
Proof.
  unfold refresh.
  destruct (get_git_dir w (set_git_dir g None)) as [[g2 r]|] eqn:G;
    [|discriminate].
  destruct (get_git_dir_frame _ _ _ _ G) as [R F]. subst g2.
  rewrite set_git_dir_twice. intros H. exists r. split; [reflexivity|].
  cbn [_git_dir _is_bare_repo set_git_dir set_is_in_repo set_work_tree set_cwd]
    in H.
  rewrite negb_involutive in H.
  destruct (Py.truthy_opt r && negb (_is_bare_repo g)) eqn:C.
  - apply andb_true_iff in C. destruct C as [C B].
    apply negb_true_iff in B. destruct r as [d|]; [|discriminate].
    rewrite C in H.
    rewrite (get_work_tree_fresh w _ d) in H by (simpl; auto).
    inversion H; subst. reflexivity.
  - inversion H; subst. reflexivity.
Qed.

Lemma refresh_git_dir (w : World) (g g' : Git) :
  refresh w g = Some g' ->
  get_git_dir w (set_git_dir g None)
  = Some (set_git_dir g (_git_dir g'), _git_dir g').
Proof.
  intros H. destruct (refresh_shape w g g' H) as (r & G & S).
  assert (_git_dir g' = r) as ->; [|exact G].
  subst g'. now destruct (Py.truthy_opt r && negb (_is_bare_repo g)).
Qed.

(** X2.  Whatever [refresh] leaves in [_git_dir] is either the value of
    [GIT_DIR], or a directory that passes the test and has the form [d] or
    [d/.git] for [d] the starting location or one of its ancestors. *)
Theorem resolved_directory_is_valid (w : World) (g g' : Git) (r : string) :
  refresh w g = Some g' ->
  _git_dir g' = Some r ->
  getenv w "GIT_DIR" = Some r
  \/ (_is_git_dir w r = true
      /\ exists d, ancestor_or_self d (_location g)
                   /\ (r = d \/ r = PosixPath.join d ".git")).
Proof.
  intros H R. apply refresh_git_dir in H. rewrite R in H.
  unfold get_git_dir in H.
  cbn [negb Py.truthy_opt _git_dir _location set_git_dir] in H.
  match type of H with context [if ?c then _ else _] => destruct c end.
  - inversion H. now left.
  - match type of H with
    | context [walk w ?n ?p ?x] =>
        destruct (walk w n p x) as [g3|] eqn:W; [|discriminate]
    end.
    assert (Q : _git_dir g3 = Some r) by congruence.
    destruct (walk_finds_valid w _ _ _ _ r W Q) as [K|K]; [now left|].
    now right.
Qed.

Lemma resolved_directory_is_valid_witness :
  getenv (one_repo no_env "/srv/repo/sub" prints_abc) "GIT_DIR"
  = Some "/srv/repo/.git"
  \/ (_is_git_dir (one_repo no_env "/srv/repo/sub" prints_abc)
                  "/srv/repo/.git" = true
      /\ exists d, ancestor_or_self d "/srv/repo/sub"
                   /\ ("/srv/repo/.git" = d
                       \/ "/srv/repo/.git" = PosixPath.join d ".git")).
Proof.
  exact (resolved_directory_is_valid
           (one_repo no_env "/srv/repo/sub" prints_abc)
           (fresh "/srv/repo/sub")
           {| _location := "/srv/repo/sub"; _is_bare_repo := false;
              _git_dir := Some "/srv/repo/.git"; _is_in_repo := true;
              _work_tree := Some "/srv/repo"; _cwd := Some "/srv/repo" |}
           "/srv/repo/.git" eq_refl eq_refl).
Defined.

(** ** The nearest repository wins *)

Lemma chain_head (n : nat) (p : string) : exists rest, chain n p = p :: rest.
Proof. destruct n; simpl; now eauto. Qed.

Lemma basename_nonempty (p : string) : basename p <> "" -> p <> "".
Proof. intros H E. subst p. now apply H. Qed.

Lemma found_at_valid (w : World) (d : string) :
  repository_at w d = true -> _is_git_dir w (found_at w d) = true.
Proof.
  unfold repository_at, found_at.
  destruct (_is_git_dir w d) eqn:V; simpl; [now rewrite V | auto].
Qed.

Lemma join_nonempty (a b : string) : a <> "" -> PosixPath.join a b <> "".
Proof.
  intros A. unfold PosixPath.join.
  destruct (Py.startswith b "/") eqn:S.
  - apply startswith_iff in S. destruct S as [rest ->]. discriminate.
  - destruct a as [|c a]; [congruence|].
    now destruct (negb (Py.nonempty (String c a))
                  || PosixPath.endswith_slash (String c a)).
Qed.

Lemma found_at_nonempty (w : World) (d : string) :
  d <> "" -> found_at w d <> "".
Proof.
  intros D. unfold found_at.
  destruct (_is_git_dir w d); [exact D | now apply join_nonempty].
Qed.

(** The loop passes the directories that hold no repository and stops at
    the first that does. *)
Lemma walk_stops_at_first (w : World) (d : string) (post : list string) :
  d <> "" -> repository_at w d = true ->
  forall (pre : list string) (n fuel : nat) (p : string) (g : Git),
    chain n p = (pre ++ d :: post)%list ->
    String.length p < fuel ->
    forallb (fun x => Py.nonempty (basename x) && negb (repository_at w x))
            pre = true ->
    walk w fuel p g = Some (set_git_dir g (Some (found_at w d))).
Proof.
  intros D V. induction pre as [|x pre IH]; intros n fuel p g C L F.
  - destruct (chain_head n p) as [rest R]. rewrite R in C.
    inversion C; subst. destruct fuel as [|fuel]; [lia|]. simpl.
    apply nonempty_true in D. rewrite D.
    unfold repository_at in V. unfold found_at.
    destruct (_is_git_dir w d); [reflexivity|].
    simpl in V. now rewrite V.
  - destruct n as [|n]; simpl in C.
    { inversion C. destruct pre; discriminate. }
    inversion C as [[P R]]. subst x.
    destruct (String.eqb (dirname p) p); [destruct pre; discriminate|].
    simpl in F. apply andb_true_iff in F. destruct F as [F1 F].
    apply andb_true_iff in F1. destruct F1 as [B N].
    apply nonempty_true in B. apply negb_true_iff in N.
    unfold repository_at in N. apply orb_false_iff in N.
    destruct N as [N1 N2].
    destruct fuel as [|fuel]; [lia|]. simpl.
    assert (Py.nonempty p = true) as ->
      by (apply nonempty_true; now apply basename_nonempty).
    rewrite N1, N2.
    pose proof (dirname_shorter p B) as S.
    unfold basename, dirname in *.
    destruct (PosixPath.split p) as [h t]. simpl in *.
    apply nonempty_true in B. rewrite B. simpl.
    apply (IH n); [exact R | lia | exact F].
Qed.

(** X3.  When [GIT_DIR] does not name a control directory and the chain
    of directories from the starting location upwards, each with a last
    component, first meets a repository at [d], [get_git_dir] returns the
    control directory at [d] ([d] itself if it passes the test, [d/.git]
    if not) and [refresh] records it with [_is_in_repo] true. *)
Theorem resolution_finds_nearest (w : World) (g : Git) (d : string)
        (pre post : list string) :
  valid_override w = false ->
  ancestors (_location g) = (pre ++ d :: post)%list ->
  forallb (fun x => Py.nonempty (basename x) && negb (repository_at w x))
          pre = true ->
  d <> "" ->
  repository_at w d = true ->
  _is_git_dir w (found_at w d) = true
  /\ get_git_dir w (set_git_dir g None)
     = Some (set_git_dir g (Some (found_at w d)), Some (found_at w d))
  /\ exists g', refresh w g = Some g'
                /\ _git_dir g' = Some (found_at w d)
                /\ _is_in_repo g' = true.
Proof.
  intros O C F D V.
  assert (G : get_git_dir w (set_git_dir g None)
              = Some (set_git_dir g (Some (found_at w d)),
                      Some (found_at w d))).
  { unfold get_git_dir.
    cbn [negb Py.truthy_opt _git_dir _location set_git_dir].
    assert (Py.truthy_opt (getenv w "GIT_DIR")
            && match getenv w "GIT_DIR" with
               | Some d0 => _is_git_dir w d0
               | None => false
               end = false) as ->.
    { unfold valid_override in O.
      now destruct (getenv w "GIT_DIR"). }
    rewrite (walk_stops_at_first w d post D V pre _ _ _ _ C
               (Nat.lt_succ_diag_r _) F).
    reflexivity. }
  split; [now apply found_at_valid|]. split; [exact G|].
  destruct (refresh_returns w g) as [g' R]. exists g'.
  split; [exact R|].
  pose proof (refresh_git_dir w g g' R) as G'. rewrite G in G'.
  assert (Q : _git_dir g' = Some (found_at w d)) by congruence.
  split; [exact Q|].
  destruct (refresh_shape w g g' R) as (r & _ & S).
  assert (T : Py.truthy_opt (_git_dir g') = true).
  { rewrite Q. simpl. apply nonempty_true. now apply found_at_nonempty. }
  assert (E : _git_dir g' = r)
    by (rewrite S; now destruct (Py.truthy_opt r && negb (_is_bare_repo g))).
  rewrite E in T. rewrite T in S. rewrite S.
  now destruct (_is_bare_repo g).
Qed.

Lemma resolution_finds_nearest_witness :
  get_git_dir (one_repo no_env "/srv/repo/sub" prints_abc)
              (set_git_dir (fresh "/srv/repo/sub") None)
  = Some (set_git_dir (fresh "/srv/repo/sub") (Some "/srv/repo/.git"),
          Some "/srv/repo/.git").
Proof.
  refine (proj1 (proj2
    (resolution_finds_nearest (one_repo no_env "/srv/repo/sub" prints_abc)
       (fresh "/srv/repo/sub") "/srv/repo" ["/srv/repo/sub"] ["/srv"; "/"]
       eq_refl eq_refl eq_refl _ eq_refl))).
  discriminate.
Defined.

(** ** The attributes after [refresh] *)

Lemma normpath_nonempty (p : string) : PosixPath.normpath p <> "".
Proof.
  unfold PosixPath.normpath.
  destruct (String.eqb p ""); [discriminate|].
  match goal with
  | |- (if Py.nonempty ?x then _ else _) <> _ =>
      destruct (Py.nonempty x) eqn:N; [now apply nonempty_true | discriminate]
  end.
Qed.

Lemma abspath_nonempty (cwd p : string) : PosixPath.abspath cwd p <> "".
Proof.
  unfold PosixPath.abspath.
  destruct (PosixPath.isabs p); apply normpath_nonempty.
Qed.

Lemma work_tree_override_dir (w : World) (t : string) :
  work_tree_override w = Some t ->
  getenv w "GIT_WORK_TREE" = Some t /\ t <> "" /\ isdir w t = true.
Proof.
  unfold work_tree_override.
  destruct (getenv w "GIT_WORK_TREE") as [t'|]; [|discriminate].
  destruct (Py.nonempty t') eqn:N; simpl; [|discriminate].
  destruct (isdir w t') eqn:D; [|discriminate].
  intros Q. inversion Q; subst. apply nonempty_true in N. auto.
Qed.

Lemma refresh_consistent (w : World) (g g' : Git) :
  refresh w g = Some g' ->
  _location g' = _location g
  /\ _is_bare_repo g' = _is_bare_repo g
  /\ _is_in_repo g' = Py.truthy_opt (_git_dir g')
  /\ (_is_in_repo g' = false ->
      _work_tree g' = None /\ _cwd g' = _git_dir g'
      /\ Py.truthy_opt (_cwd g') = false).
Proof.
  intros H. destruct (refresh_shape w g g' H) as (r & _ & S). subst g'.
  destruct (Py.truthy_opt r && negb (_is_bare_repo g)) eqn:C; simpl.
  - apply andb_true_iff in C. destruct C as [C _]. rewrite C.
    repeat split; discriminate.
  - repeat split; auto.
Qed.

(** X4.  [refresh] keeps the starting location and the bare flag, and
    leaves the object consistent: [_is_in_repo] is true exactly when
    [_git_dir] holds a non-empty path, and outside a repository there is no
    work tree and [_cwd] is the absent or empty [_git_dir]. *)
Theorem refresh_invariant (w : World) (g g' : Git) :
  refresh w g = Some g' ->
  _location g' = _location g
  /\ _is_bare_repo g' = _is_bare_repo g
  /\ _is_in_repo g' = Py.truthy_opt (_git_dir g')
  /\ (_is_in_repo g' = false ->
      _work_tree g' = None /\ _cwd g' = _git_dir g'
      /\ Py.truthy_opt (_cwd g') = false).
Proof. apply refresh_consistent. Qed.

Lemma refresh_invariant_witness :
  _is_in_repo {| _location := "/home/user"; _is_bare_repo := false;
                 _git_dir := None; _is_in_repo := false;
                 _work_tree := None; _cwd := None |}
  = Py.truthy_opt None.
Proof.
  exact (proj1 (proj2 (proj2
    (refresh_invariant (one_repo no_env "/home/user" prints_abc)
       (fresh "/home/user") _ eq_refl)))).
Defined.

(** X5.  For an object flagged bare, [refresh] never sets a work tree,
    whatever [GIT_WORK_TREE] holds, and children run in the control
    directory; [get_work_tree] on the result returns [None] and changes
    nothing, in any world. *)
Theorem bare_has_no_work_tree (w : World) (g g' : Git) :
  _is_bare_repo g = true ->
  refresh w g = Some g' ->
  _work_tree g' = None
  /\ _cwd g' = _git_dir g'
  /\ forall w', get_work_tree w' g' = Some (g', None).
Proof.
  intros B H. destruct (refresh_shape w g g' H) as (r & _ & S).
  rewrite B, andb_false_r in S. subst g'. simpl.
  repeat split.
Qed.

Lemma bare_has_no_work_tree_witness :
  _work_tree {| _location := "/srv/repo/.git"; _is_bare_repo := true;
                _git_dir := Some "/srv/repo/.git"; _is_in_repo := true;
                _work_tree := None; _cwd := Some "/srv/repo/.git" |}
  = None.
Proof.
  exact (proj1
    (bare_has_no_work_tree
       (one_repo (env_work_tree "/tmp") "/home" prints_abc)
       {| _location := "/srv/repo/.git"; _is_bare_repo := true;
          _git_dir := None; _is_in_repo := false;
          _work_tree := None; _cwd := None |} _ eq_refl eq_refl)).
Defined.

(** X6.  For an object not flagged bare that [refresh] finds inside a
    repository with control directory [d]: the work tree is
    [GIT_WORK_TREE] when that is set, non-empty and an existing directory,
    and the absolute, normalised parent of [d] in every other case; it is
    never empty, and it is the directory children run in. *)
Theorem work_tree_resolution (w : World) (g g' : Git) (d : string) :
  _is_bare_repo g = false ->
  refresh w g = Some g' ->
  _git_dir g' = Some d ->
  d <> "" ->
  (forall t, getenv w "GIT_WORK_TREE" = Some t -> t <> "" ->
             isdir w t = true -> _work_tree g' = Some t)
  /\ ((forall t, getenv w "GIT_WORK_TREE" = Some t ->
                 t = "" \/ isdir w t = false) ->
      _work_tree g'
      = Some (PosixPath.abspath (getcwd w) (PosixPath.join d "..")))
  /\ Py.truthy_opt (_work_tree g') = true
  /\ _cwd g' = _work_tree g'.
Proof.
  intros B H G D. destruct (refresh_shape w g g' H) as (r & _ & S).
  assert (E : _git_dir g' = r)
    by (rewrite S; now destruct (Py.truthy_opt r && negb (_is_bare_repo g))).
  rewrite G in E. subst r.
  assert (T : Py.truthy_opt (Some d) = true) by now apply nonempty_true.
  rewrite T, B in S. cbn [negb andb] in S. subst g'. cbn [_work_tree _cwd].
  split; [|split; [|split]].
  - intros t E N I. unfold work_tree_override. rewrite E.
    apply nonempty_true in N. now rewrite N, I.
  - intros N. unfold work_tree_override.
    destruct (getenv w "GIT_WORK_TREE") as [t|] eqn:E; [|reflexivity].
    destruct (N t eq_refl) as [-> | I]; [reflexivity|].
    rewrite I. now rewrite andb_false_r.
  - cbn [Py.truthy_opt]. apply nonempty_true.
    destruct (work_tree_override w) as [t|] eqn:O.
    + now destruct (work_tree_override_dir w t O) as (_ & N & _).
    + apply abspath_nonempty.
  - reflexivity.
Qed.

Lemma work_tree_resolution_witness :
  _work_tree {| _location := "/srv/repo/sub"; _is_bare_repo := false;
                _git_dir := Some "/srv/repo/.git"; _is_in_repo := true;
                _work_tree := Some "/tmp"; _cwd := Some "/tmp" |}
  = Some "/tmp".
Proof.
  refine (proj1
    (work_tree_resolution
       (one_repo (env_work_tree "/tmp") "/srv/repo/sub" prints_abc)
       (fresh "/srv/repo/sub") _ "/srv/repo/.git" eq_refl eq_refl eq_refl _)
    "/tmp" eq_refl _ eq_refl); discriminate.
Defined.

(** ** Refreshing again *)

Lemma walk_ext (w : World) (fuel : nat) :
  forall (p : string) (g1 g1' g2 : Git),
    walk w fuel p g1 = Some g1' ->
    _git_dir g1 = _git_dir g2 ->
    walk w fuel p g2 = Some (set_git_dir g2 (_git_dir g1')).
Proof.
  induction fuel as [|fuel IH]; intros p g1 g1' g2; simpl; [discriminate|].
  assert (Same : Some g1 = Some g1' -> _git_dir g1 = _git_dir g2 ->
                 Some g2 = Some (set_git_dir g2 (_git_dir g1')))
    by (intros Q E; inversion Q; subst; rewrite E; now destruct g2).
  destruct (Py.nonempty p); [|exact Same].
  destruct (_is_git_dir w p); [intros Q _; now inversion Q|].
  destruct (_is_git_dir w (PosixPath.join p ".git"));
    [intros Q _; now inversion Q|].
  destruct (PosixPath.split p) as [h t].
  destruct (Py.nonempty t); simpl; [apply IH | exact Same].
Qed.

Lemma get_git_dir_ext (w : World) (g1 g1' g2 : Git) (r : option string) :
  _location g1 = _location g2 ->
  _git_dir g1 = _git_dir g2 ->
  get_git_dir w g1 = Some (g1', r) ->
  get_git_dir w g2 = Some (set_git_dir g2 r, r).
Proof.
  intros L E. unfold get_git_dir.
  cbn [_git_dir _location set_git_dir]. rewrite <- L, <- E.
  destruct (negb (Py.truthy_opt (_git_dir g1))).
  - match goal with |- context [if ?c then _ else _] => destruct c end.
    + intros Q. now inversion Q.
    + destruct (walk w (S (String.length (_location g1))) (_location g1)
                  (set_git_dir g1 (getenv w "GIT_DIR"))) as [g3|] eqn:W;
        [|discriminate].
      intros Q. inversion Q; subst.
      rewrite (walk_ext w _ _ _ _ (set_git_dir g2 (getenv w "GIT_DIR"))
                 W eq_refl).
      reflexivity.
  - intros Q. inversion Q; subst. rewrite E. now destruct g2.
Qed.

(** [refresh] reads the starting location and the bare flag of the object
    and nothing else of it. *)
Lemma refresh_ext (w : World) (g1 g2 : Git) :
  _location g1 = _location g2 ->
  _is_bare_repo g1 = _is_bare_repo g2 ->
  refresh w g1 = refresh w g2.
Proof.
  intros L B.
  destruct (refresh_returns w g1) as [g1' R1].
  destruct (refresh_returns w g2) as [g2' R2].
  rewrite R1, R2. f_equal.
  destruct (refresh_shape w g1 g1' R1) as (r1 & G1 & S1).
  destruct (refresh_shape w g2 g2' R2) as (r2 & G2 & S2).
  pose proof (get_git_dir_ext w (set_git_dir g1 None) _ (set_git_dir g2 None)
                r1 L eq_refl G1) as G.
  rewrite G2 in G. assert (r2 = r1) by congruence. subst r2.
  rewrite S1, S2, L, B. reflexivity.
Qed.

(** X7.  Refreshing twice in an unchanged world gives what refreshing once
    gave: [refresh] recomputes every cached attribute from the starting
    location and the bare flag alone. *)
Theorem refresh_idempotent (w : World) (g g' : Git) :
  refresh w g = Some g' -> refresh w g' = Some g'.
Proof.
  intros H. rewrite <- H. apply refresh_ext.
  - now apply refresh_location in H.
  - now destruct (refresh_consistent w g g' H) as (_ & B & _).
Qed.

Lemma refresh_idempotent_witness :
  refresh (one_repo no_env "/srv/repo/sub" prints_abc)
          {| _location := "/srv/repo/sub"; _is_bare_repo := false;
             _git_dir := Some "/srv/repo/.git"; _is_in_repo := true;
             _work_tree := Some "/srv/repo"; _cwd := Some "/srv/repo" |}
  = Some {| _location := "/srv/repo/sub"; _is_bare_repo := false;
            _git_dir := Some "/srv/repo/.git"; _is_in_repo := true;
            _work_tree := Some "/srv/repo"; _cwd := Some "/srv/repo" |}.
Proof.
  exact (refresh_idempotent (one_repo no_env "/srv/repo/sub" prints_abc)
           (fresh "/srv/repo/sub") _ eq_refl).
Defined.

(** ** The caches *)

(** X8.  Once [refresh] has found a repository, [get_git_dir] and
    [get_work_tree] answer from the object alone: in any later world,
    whatever the environment and the file system have become, they return
    the cached control directory (the value of [get_dir]) and work tree and
    change nothing. *)
Theorem resolved_answers_are_cached (w : World) (g g' : Git) :
  refresh w g = Some g' ->
  _is_in_repo g' = true ->
  forall w',
    get_git_dir w' g' = Some (g', get_dir g')
    /\ get_work_tree w' g' = Some (g', _work_tree g').
Proof.
  intros H I w'. destruct (refresh_shape w g g' H) as (r & _ & S).
  assert (T : Py.truthy_opt r = true).
  { rewrite S in I.
    destruct (Py.truthy_opt r && negb (_is_bare_repo g)) eqn:C; [|exact I].
    now apply andb_true_iff in C. }
  rewrite T in S. unfold get_dir, get_git_dir, get_work_tree.
  destruct (_is_bare_repo g) eqn:B; cbn [negb andb] in S; subst g';
    cbn [_git_dir _work_tree _is_bare_repo]; rewrite ?T, ?B;
    cbn [negb]; [now split|].
  split; [reflexivity|].
  match goal with
  | |- context [Py.truthy_opt (Some ?t)] =>
      assert (Py.truthy_opt (Some t) = true) as ->; [|reflexivity]
  end.
  cbn [Py.truthy_opt]. apply nonempty_true.
  destruct (work_tree_override w) as [t|] eqn:O.
  - now destruct (work_tree_override_dir w t O) as (_ & N & _).
  - apply abspath_nonempty.
Qed.

Lemma resolved_answers_are_cached_witness :
  get_git_dir (one_repo (env_git_dir "/elsewhere") "/" cannot_start)
    {| _location := "/srv/repo/sub"; _is_bare_repo := false;
       _git_dir := Some "/srv/repo/.git"; _is_in_repo := true;
       _work_tree := Some "/srv/repo"; _cwd := Some "/srv/repo" |}
  = Some ({| _location := "/srv/repo/sub"; _is_bare_repo := false;
             _git_dir := Some "/srv/repo/.git"; _is_in_repo := true;
             _work_tree := Some "/srv/repo"; _cwd := Some "/srv/repo" |},
          Some "/srv/repo/.git").
Proof.
  exact (proj1
    (resolved_answers_are_cached (one_repo no_env "/srv/repo/sub" prints_abc)
       (fresh "/srv/repo/sub") _ eq_refl eq_refl
       (one_repo (env_git_dir "/elsewhere") "/" cannot_start))).
Defined.

(** X9.  [get_git_dir] assigns [_git_dir] and nothing else, and
    [get_work_tree] assigns [_work_tree] and nothing else: called outside
    [refresh] they update neither [_is_in_repo] nor [_cwd], even when they
    find a repository that was not there before. *)
Theorem getters_assign_their_cache_only (w : World) (g g' : Git)
        (r : option string) :
  (get_git_dir w g = Some (g', r) ->
   r = _git_dir g' /\ g' = set_git_dir g r)
  /\ (get_work_tree w g = Some (g', r) ->
      (_is_bare_repo g = false -> r = _work_tree g')
      /\ g' = set_work_tree g (_work_tree g')).
Proof.
  split; [apply get_git_dir_frame|].
  unfold get_work_tree.
  assert (Same : forall t, Some (g, t) = Some (g', r) ->
                 (_is_bare_repo g = false -> t = _work_tree g -> r = _work_tree g')
                 /\ g' = set_work_tree g (_work_tree g'))
    by (intros t Q; inversion Q; subst; split;
        [now intros _ -> | now destruct g']).
  destruct (_is_bare_repo g) eqn:B.
  { intros Q. destruct (Same _ Q) as [_ S]. split; [discriminate | exact S]. }
  destruct (negb (Py.truthy_opt (_work_tree g))).
  - match goal with |- context [if ?c then _ else _] => destruct c end.
    + cbn [_git_dir set_work_tree]. destruct (_git_dir g); [|discriminate].
      intros Q. inversion Q; subst. now split.
    + intros Q. inversion Q; subst. now split.
  - intros Q. destruct (Same _ Q) as [S1 S2]. split; [|exact S2].
    intros _. now apply S1.
Qed.

Lemma getters_assign_their_cache_only_witness :
  Some "/srv/repo/.git"
  = _git_dir (set_git_dir (fresh "/srv/repo/sub") (Some "/srv/repo/.git")).
Proof.
  exact (proj1 (proj1
    (getters_assign_their_cache_only
       (one_repo no_env "/srv/repo/sub" prints_abc) (fresh "/srv/repo/sub")
       (set_git_dir (fresh "/srv/repo/sub") (Some "/srv/repo/.git"))
       (Some "/srv/repo/.git")) eq_refl)).
Defined.

(** X10.  A [GIT_DIR] that names a control directory is taken as it is,
    wherever the object starts from, be it inside another repository. *)
Theorem valid_override_wins (w : World) (g : Git) (d : string) :
  getenv w "GIT_DIR" = Some d ->
  d <> "" ->
  _is_git_dir w d = true ->
  get_git_dir w (set_git_dir g None) = Some (set_git_dir g (Some d), Some d)
  /\ exists g', refresh w g = Some g'
                /\ _git_dir g' = Some d /\ _is_in_repo g' = true.
Proof.
  intros E D V.
  assert (G : get_git_dir w (set_git_dir g None)
              = Some (set_git_dir g (Some d), Some d)).
  { unfold get_git_dir. cbn [negb Py.truthy_opt _git_dir set_git_dir].
    rewrite E. cbn [Py.truthy_opt]. apply nonempty_true in D.
    now rewrite D, V. }
  split; [exact G|].
  destruct (refresh_returns w g) as [g' R]. exists g'. split; [exact R|].
  pose proof (refresh_git_dir w g g' R) as G'. rewrite G in G'.
  assert (Q : _git_dir g' = Some d) by congruence.
  split; [exact Q|].
  destruct (refresh_consistent w g g' R) as (_ & _ & I & _).
  rewrite I, Q. cbn [Py.truthy_opt]. now apply nonempty_true.
Qed.

Lemma valid_override_wins_witness :
  get_git_dir (one_repo (env_git_dir "/srv/repo/.git") "/" prints_abc)
              (set_git_dir (fresh "/home/user") None)
  = Some (set_git_dir (fresh "/home/user") (Some "/srv/repo/.git"),
          Some "/srv/repo/.git").
Proof.
  refine (proj1
    (valid_override_wins
       (one_repo (env_git_dir "/srv/repo/.git") "/" prints_abc)
       (fresh "/home/user") "/srv/repo/.git" eq_refl _ eq_refl)).
  discriminate.
Defined.

(** ** More on the process runner *)

(** X11.  When the child cannot be started, [execute] raises the
    [OSError] of [subprocess.Popen] whatever its options, with
    [with_exceptions] false too; plain tracing has printed the command by
    then, and nothing is printed afterwards, not even under full tracing.
    [method_missing] passes the error on. *)
Theorem spawn_failure_propagates (w : World) (trace : Py.value)
        (command : list string)
        (istream with_keep_cwd with_extended_output with_exceptions
         with_raw_output : Py.value) (s : state) (message : string) :
  popen w command (child_cwd w with_keep_cwd (self s)) istream
  = inl message ->
  execute w trace command istream with_keep_cwd with_extended_output
          with_exceptions with_raw_output s
  = ({| self := self s;
        log := (log s
                ++ (if Py.truthy trace && negb (Py.eq_str trace "full")
                    then [Print (Py.join " " command)] else [])
                ++ [Spawn command (child_cwd w with_keep_cwd (self s))
                          istream])%list |},
     inl (OSError message))
  /\ (forall method args kwargs,
        command = (["git"; dashify method]
                   ++ transform_kwargs (cli_kwargs kwargs)
                   ++ map Py.str args)%list ->
        istream = option_value kwargs "istream" Py.VNone ->
        with_keep_cwd = option_value kwargs "with_keep_cwd" (Py.VBool false) ->
        snd (method_missing w trace method args kwargs s)
        = inl (OSError message)).
Proof.
  intros P. split.
  - rewrite execute_outcome. cbn zeta. now rewrite P.
  - intros method args kwargs C I K. rewrite method_missing_eq.
    rewrite execute_outcome. cbn zeta. rewrite <- C, <- I, <- K.
    now rewrite P.
Qed.

Lemma spawn_failure_propagates_witness :
  execute (one_repo no_env "/tmp" cannot_start) (Py.VStr "full")
          ["git"; "status"] Py.VNone (Py.VBool false) (Py.VBool true)
          (Py.VBool false) (Py.VBool false) (start (fresh "/tmp"))
  = ({| self := fresh "/tmp";
        log := [Spawn ["git"; "status"] None Py.VNone] |},
     inl (OSError "[Errno 2] No such file or directory")).
Proof.
  exact (proj1
    (spawn_failure_propagates (one_repo no_env "/tmp" cannot_start)
       (Py.VStr "full") ["git"; "status"] Py.VNone (Py.VBool false)
       (Py.VBool true) (Py.VBool false) (Py.VBool false)
       (start (fresh "/tmp")) "[Errno 2] No such file or directory" eq_refl)).
Defined.

(** X12.  Tracing is transparent: the value [GIT_PYTHON_TRACE] holds
    changes what is printed and nothing else.  Under any two values
    [execute] and [method_missing] return or raise the same, start the
    same child and leave the same object. *)
Theorem tracing_is_transparent (w : World) (trace1 trace2 : Py.value) :
  (forall command istream with_keep_cwd with_extended_output with_exceptions
          with_raw_output s,
     let run trace :=
       execute w trace command istream with_keep_cwd with_extended_output
               with_exceptions with_raw_output s in
     snd (run trace1) = snd (run trace2)
     /\ spawns (log (fst (run trace1))) = spawns (log (fst (run trace2)))
     /\ self (fst (run trace1)) = self (fst (run trace2)))
  /\ (forall method args kwargs s,
        let run trace := method_missing w trace method args kwargs s in
        snd (run trace1) = snd (run trace2)
        /\ spawns (log (fst (run trace1))) = spawns (log (fst (run trace2)))
        /\ self (fst (run trace1)) = self (fst (run trace2))).
Proof.
  assert (E : forall command istream with_keep_cwd with_extended_output
                     with_exceptions with_raw_output s,
             snd (execute w trace1 command istream with_keep_cwd
                          with_extended_output with_exceptions
                          with_raw_output s)
             = snd (execute w trace2 command istream with_keep_cwd
                            with_extended_output with_exceptions
                            with_raw_output s)).
  { intros. rewrite !execute_outcome. cbn zeta.
    destruct (popen w command _ istream) as [m|proc]; [reflexivity|].
    now destruct (Py.truthy with_exceptions
                  && negb (Z.eqb (returncode proc) 0)). }
  split.
  - intros. subst run. cbn beta. split; [apply E|].
    split; [now rewrite !execute_spawns | now rewrite !execute_self].
  - intros. subst run. cbn beta. rewrite !method_missing_eq.
    split; [apply E|].
    split; [now rewrite !execute_spawns | now rewrite !execute_self].
Qed.

(** ** More on the keyword arguments *)

Lemma transform_kwargs_single (k : string) (v : Py.value) :
  (is_False v = true /\ transform_kwargs [(k, v)] = [])
  \/ (is_False v = false
      /\ exists tok, transform_kwargs [(k, v)] = [tok]
                     /\ starts_with_dash tok = true).
Proof.
  unfold transform_kwargs, transform_kwarg. simpl.
  destruct (Nat.eqb (String.length k) 1);
    destruct v as [| [|] | z | t]; simpl;
    try (left; split; reflexivity);
    right; (split; [reflexivity|]); eexists; split; try reflexivity;
    apply startswith_iff; eexists; reflexivity.
Qed.

(** X13.  [transform_kwargs] gives exactly one token for each keyword
    argument whose value is not [False], whatever the length of the key
    (the empty key included), and every token starts with a hyphen: no
    keyword is lost or doubled. *)
Theorem transform_kwargs_tokens (kwargs : dict) :
  List.length (transform_kwargs kwargs)
  = List.length (filter (fun kv => negb (is_False (snd kv))) kwargs)
  /\ Forall (fun tok => starts_with_dash tok = true) (transform_kwargs kwargs).
Proof.
  induction kwargs as [|[k v] kwargs [IH1 IH2]]; [split; [reflexivity|constructor]|].
  rewrite transform_kwargs_cons. cbn [filter snd].
  destruct (transform_kwargs_single k v) as [[F E] | [F (tok & E & D)]];
    rewrite E, F; cbn [negb]; simpl.
  - now split.
  - split; [now rewrite IH1 | now constructor].
Qed.

Lemma transform_kwargs_permutation (a b : dict) :
  Permutation a b -> Permutation (transform_kwargs a) (transform_kwargs b).
Proof.
  induction 1 as [|kv a b P IH|x y a|a b c P1 IH1 P2 IH2].
  - constructor.
  - rewrite (transform_kwargs_cons kv a), (transform_kwargs_cons kv b).
    now apply Permutation_app_head.
  - rewrite (transform_kwargs_cons y (x :: a)), (transform_kwargs_cons x a),
      (transform_kwargs_cons x (y :: a)), (transform_kwargs_cons y a).
    rewrite !app_assoc. apply Permutation_app_tail, Permutation_app_comm.
  - now transitivity (transform_kwargs b).
Qed.

Lemma cli_kwargs_permutation (a b : dict) :
  Permutation a b -> Permutation (cli_kwargs a) (cli_kwargs b).
Proof.
  unfold cli_kwargs.
  induction 1 as [|kv a b P IH|x y a|a b c P1 IH1 P2 IH2].
  - constructor.
  - cbn [filter]. destruct (negb _); [now constructor | exact IH].
  - cbn [filter].
    destruct (negb (existsb (String.eqb (fst x)) execute_kwargs)),
      (negb (existsb (String.eqb (fst y)) execute_kwargs));
      try reflexivity. apply perm_swap.
  - now transitivity
      (filter (fun kv => negb (existsb (String.eqb (fst kv)) execute_kwargs)) b).
Qed.

(** X14.  [method_missing] hands [execute] each of its five options at the
    value the call gave it and otherwise at its default ([istream=None],
    [with_keep_cwd=False], [with_extended_output=False],
    [with_exceptions=True], [with_raw_output=False]).  A keyword that is an
    option of [execute] never becomes a flag: a call with the same
    keywords less the option, in whatever order its dictionary iterates
    them, has the same flags up to their order; and every flag comes from
    a keyword that is not an option. *)
Theorem method_missing_options (w : World) (trace : Py.value)
        (method : string) (args : list Py.value) (kwargs : dict) :
  method_missing w trace method args kwargs
  = execute w trace
      (["git"; dashify method] ++ transform_kwargs (cli_kwargs kwargs)
       ++ map Py.str args)%list
      (option_value kwargs "istream" Py.VNone)
      (option_value kwargs "with_keep_cwd" (Py.VBool false))
      (option_value kwargs "with_extended_output" (Py.VBool false))
      (option_value kwargs "with_exceptions" (Py.VBool true))
      (option_value kwargs "with_raw_output" (Py.VBool false))
  /\ (forall before after name v kwargs',
        kwargs = (before ++ (name, v) :: after)%list ->
        In name execute_kwargs ->
        Permutation (before ++ after)%list kwargs' ->
        Permutation (transform_kwargs (cli_kwargs kwargs))
                    (transform_kwargs (cli_kwargs kwargs')))
  /\ (forall tok,
        In tok (transform_kwargs (cli_kwargs kwargs)) ->
        exists k v, In (k, v) kwargs /\ ~ In k execute_kwargs
                    /\ transform_kwargs [(k, v)] = [tok]).
Proof.
  split; [apply method_missing_eq|]. split.
  - intros before after name v kwargs' -> I P.
    apply transform_kwargs_permutation.
    transitivity (cli_kwargs (before ++ after)%list);
      [|now apply cli_kwargs_permutation].
    unfold cli_kwargs. rewrite !filter_app. cbn [filter fst].
    assert (existsb (String.eqb name) execute_kwargs = true) as ->;
      [|reflexivity].
    apply existsb_exists. exists name. split; [exact I | apply String.eqb_refl].
  - induction kwargs as [|[k v] kwargs IH]; intros tok; [intros []|].
    unfold cli_kwargs in *. cbn [filter fst].
    destruct (existsb (String.eqb k) execute_kwargs) eqn:X; cbn [negb].
    + intros H. destruct (IH tok H) as (k' & v' & I & N & E).
      exists k', v'. split; [now right | now split].
    + rewrite transform_kwargs_cons. intros H. apply in_app_or in H.
      destruct H as [H|H].
      * exists k, v. split; [now left|]. split.
        -- intros I. assert (existsb (String.eqb k) execute_kwargs = true);
             [|congruence].
           apply existsb_exists. exists k. split; [exact I|apply String.eqb_refl].
        -- destruct (transform_kwargs_single k v) as [[_ E] | [_ (t & E & _)]];
             rewrite E in *; [destruct H|].
           destruct H as [<- | []]. reflexivity.
      * destruct (IH tok H) as (k' & v' & I & N & E).
        exists k', v'. split; [now right | now split].
Qed.

Lemma method_missing_options_witness :
  Permutation
    (transform_kwargs
       (cli_kwargs [("max_count", Py.VInt 10);
                    ("with_raw_output", Py.VBool true);
                    ("header", Py.VBool true)]))
    (transform_kwargs
       (cli_kwargs [("header", Py.VBool true); ("max_count", Py.VInt 10)])).
Proof.
  refine (proj1 (proj2
    (method_missing_options (one_repo no_env "/srv/repo" prints_abc)
       (Py.VBool false) "rev_list" [Py.VStr "master"]
       [("max_count", Py.VInt 10); ("with_raw_output", Py.VBool true);
        ("header", Py.VBool true)]))
    [("max_count", Py.VInt 10)] [("header", Py.VBool true)]
    "with_raw_output" (Py.VBool true)
    [("header", Py.VBool true); ("max_count", Py.VInt 10)] eq_refl _ _).
  - simpl. tauto.
  - apply perm_swap.
Defined.

(** ** Where the children run *)

(** X15.  After [refresh], a dispatched call that does not set
    [with_keep_cwd] starts its child in the work tree when the object is
    inside a repository and not bare, and in the control directory in
    every other case: for a bare repository, and outside a repository,
    where that directory is absent or empty and the call is made all the
    same. *)
Theorem children_run_in_the_repository (w w' : World) (trace : Py.value)
        (g g' : Git) (method : string) (args : list Py.value) (kwargs : dict)
        (printed : list event) :
  refresh w g = Some g' ->
  Py.truthy (option_value kwargs "with_keep_cwd" (Py.VBool false)) = false ->
  let s' := fst (method_missing w' trace method args kwargs
                                {| self := g'; log := printed |}) in
  child_dirs (log s')
  = (child_dirs printed
     ++ [if _is_in_repo g' && negb (_is_bare_repo g')
         then _work_tree g' else _git_dir g'])%list
  /\ (_is_in_repo g' = false -> Py.truthy_opt (_git_dir g') = false)
  /\ self s' = g'.
Proof.
  intros H K s'. subst s'.
  rewrite method_missing_child_dirs, method_missing_self.
  unfold child_cwd. rewrite K. cbn [self log].
  destruct (refresh_consistent w g g' H) as (_ & B & I & _).
  split; [|split; [now rewrite I | reflexivity]].
  do 2 f_equal.
  destruct (refresh_shape w g g' H) as (r & _ & S). rewrite S.
  destruct (Py.truthy_opt r && negb (_is_bare_repo g)) eqn:C; cbn.
  - apply andb_true_iff in C. destruct C as [_ C]. now rewrite C.
  - apply andb_false_iff in C. destruct C as [C|C]; rewrite C;
      [reflexivity | now rewrite andb_false_r].
Qed.

Lemma children_run_in_the_repository_witness :
  child_dirs
    (log (fst (method_missing (one_repo no_env "/" prints_abc)
                 (Py.VBool false) "status" [] []
                 {| self :=
                      {| _location := "/srv/repo/sub"; _is_bare_repo := false;
                         _git_dir := Some "/srv/repo/.git";
                         _is_in_repo := true;
                         _work_tree := Some "/srv/repo";
                         _cwd := Some "/srv/repo" |};
                    log := [] |})))
  = [Some "/srv/repo"].
Proof.
  exact (proj1
    (children_run_in_the_repository
       (one_repo no_env "/srv/repo/sub" prints_abc)
       (one_repo no_env "/" prints_abc) (Py.VBool false)
       (fresh "/srv/repo/sub") _ "status" [] [] [] eq_refl eq_refl)).
Defined.

(** ** The starting location *)

Lemma normpath_absolute (p : string) :
  PosixPath.isabs p = true -> PosixPath.isabs (PosixPath.normpath p) = true.
Proof.
  unfold PosixPath.isabs, PosixPath.normpath. intros A. rewrite A.
  destruct p as [|c p]; [discriminate|]. cbn [String.eqb].
  destruct (Py.startswith (String c p) "//"
            && negb (Py.startswith (String c p) "///"));
    cbn iota; apply startswith_iff; eexists; reflexivity.
Qed.

Lemma join_absolute (a b : string) :
  PosixPath.isabs a = true -> PosixPath.isabs (PosixPath.join a b) = true.
Proof.
  unfold PosixPath.isabs, PosixPath.join. intros A.
  destruct (Py.startswith b "/") eqn:B; [exact B|].
  apply startswith_iff in A. destruct A as [rest ->].
  destruct (negb (Py.nonempty ("/" ++ rest))
            || PosixPath.endswith_slash ("/" ++ rest));
    apply startswith_iff; eexists; reflexivity.
Qed.

Lemma abspath_absolute (cwd p : string) :
  PosixPath.isabs cwd = true ->
  PosixPath.isabs (PosixPath.abspath cwd p) = true.
Proof.
  intros C. unfold PosixPath.abspath.
  destruct (PosixPath.isabs p) eqn:A; apply normpath_absolute;
    [exact A | now apply join_absolute].
Qed.

(** X16.  With an absolute current directory, the object [__init__]
    builds always starts from an absolute path: the current directory when
    [git_dir] is [None] or empty, and [git_dir] made absolute and
    normalised in every other case. *)
Theorem location_is_absolute (w : World) (git_dir : option string)
        (bare_repo : bool) (g : Git) :
  PosixPath.isabs (getcwd w) = true ->
  __init__ w git_dir bare_repo = Some g ->
  PosixPath.isabs (_location g) = true
  /\ _is_bare_repo g = bare_repo
  /\ (git_dir = None \/ git_dir = Some "" -> _location g = getcwd w)
  /\ (forall d, git_dir = Some d -> d <> "" ->
                _location g = PosixPath.abspath (getcwd w) d).
Proof.
  intros C H. unfold __init__ in H.
  pose proof (refresh_location _ _ _ H) as L.
  destruct (refresh_consistent _ _ _ H) as (_ & B & _).
  cbn [_location _is_bare_repo] in L, B. rewrite L.
  split; [|split; [exact B | split]].
  - destruct (Py.truthy_opt git_dir); [|exact C].
    destruct git_dir; [now apply abspath_absolute | exact C].
  - intros [-> | ->]; reflexivity.
  - intros d -> D. apply nonempty_true in D. cbn [Py.truthy_opt].
    now rewrite D.
Qed.

Lemma location_is_absolute_witness :
  PosixPath.isabs "/srv/repo" = true.
Proof.
  exact (proj1
    (location_is_absolute (one_repo no_env "/srv" prints_abc) (Some "repo/.")
       false
       {| _location := "/srv/repo"; _is_bare_repo := false;
          _git_dir := Some "/srv/repo/.git"; _is_in_repo := true;
          _work_tree := Some "/srv/repo"; _cwd := Some "/srv/repo" |}
       eq_refl eq_refl)).
Defined.
